(** * anket: the poll page script

    A shallow embedding of the browser script that drives a poll page,
    [src/templates/poll.js], and of its older copy
    [server/src/templates/poll.js].  The two files share most functions;
    the shared ones are embedded once, the ones that differ are embedded
    in [Module Frontend] (src/templates/poll.js) and in [Module Server]
    (server/src/templates/poll.js).

    The script is event driven.  Every listener is embedded as a
    computation over the page state (the [#poll-canvas] subtree, the
    [anket] global, the socket, the alerts shown so far) that either
    returns or throws, keeping the mutations made before the throw. *)

From Stdlib Require Import ZArith Ascii String.
From stdpp Require Import base tactics option list strings pretty.

Set Warnings "-register-all".
Open Scope string_scope.
Open Scope Z_scope.
Open Scope list_scope.

(** ** JavaScript values *)

(** The values [JSON.parse] produces, plus [undefined], which reading an
    absent property produces.  A Number is kept as the integer it holds:
    the model is exact for the integers a Number holds exactly (absolute
    value below 2^53), which covers the ids, scores and votes of the
    protocol.  An object is the list of its own properties. *)
Inductive value :=
  | VUndefined
  | VNull
  | VBool (b : bool)
  | VNum (n : Z)
  | VStr (s : string)
  | VArr (elts : list value)
  | VObj (props : list (string * value)).

(** Exceptions the script can raise: the [Error] it throws itself and the
    [TypeError] of the language (a property of [undefined] or [null], a
    call of something that is not a function). *)
Inductive exn :=
  | Error (message : string)
  | TypeError (message : string).

Inductive result (A : Type) :=
  | Return (a : A)
  | Throw (e : exn).
Arguments Return {A} a.
Arguments Throw {A} e.

Definition result_bind {A B} (r : result A) (k : A → result B) : result B :=
  match r with
  | Return a => k a
  | Throw e => Throw e
  end.

(** [join sep l] is [l.join(sep)] on strings. *)
Fixpoint join (sep : string) (l : list string) : string :=
  match l with
  | [] => ""
  | [s] => s
  | s :: l' => s +:+ sep +:+ join sep l'
  end.

(** [ToString] of the language.  Inside an array, [null] and [undefined]
    print as the empty string. *)
Fixpoint ToString (v : value) : string :=
  match v with
  | VUndefined => "undefined"
  | VNull => "null"
  | VBool true => "true"
  | VBool false => "false"
  | VNum n => pretty n
  | VStr s => s
  | VArr elts =>
      join "," (map (λ x, match x with
                          | VUndefined | VNull => ""
                          | _ => ToString x
                          end) elts)
  | VObj _ => "[object Object]"
  end.

(** The one operation of the language whose result depends on the
    floating point reading of a string: [StringToNumber s] is [Some n]
    when the Number that the string [s] converts to is the integer [n],
    and [None] otherwise. *)
Class Platform := { StringToNumber : string → option Z }.

(** A platform that reads plain decimal integers (an optional minus sign
    and digits) and nothing else, to run the model on concrete inputs. *)
Fixpoint digits_value (acc : Z) (s : string) : option Z :=
  match s with
  | "" => Some acc
  | String c s' =>
      match Ascii.is_nat c with
      | Some d => digits_value (10 * acc + Z.of_nat d) s'
      | None => None
      end
  end.

Definition decimal_StringToNumber (s : string) : option Z :=
  match s with
  | "" => None
  | String "-" (String c s') => Z.opp <$> digits_value 0 (String c s')
  | _ => digits_value 0 s
  end.

Definition decimal_platform : Platform :=
  {| StringToNumber := decimal_StringToNumber |}.

Section values.
Context `{!Platform}.

(** [x == n] for a Number literal [n] (loose equality).  [undefined]
    and [null] equal no Number; a Boolean is compared as 0 or 1; a
    string is converted to a Number; an array or an object is first
    converted to its string. *)
Definition loose_eq_num (x : value) (n : Z) : bool :=
  match x with
  | VUndefined | VNull => false
  | VBool b => bool_decide (Z.b2z b = n)
  | VNum m => bool_decide (m = n)
  | VStr s => bool_decide (StringToNumber s = Some n)
  | VArr _ | VObj _ => bool_decide (StringToNumber (ToString x) = Some n)
  end.
End values.

(** [s.split(sep)] for a separator of one character. *)
Fixpoint split (sep : ascii) (s : string) : list string :=
  match s with
  | "" => [""]
  | String c s' =>
      if Ascii.eqb c sep then "" :: split sep s'
      else match split sep s' with
           | [] => [String c ""]
           | seg :: segs => String c seg :: segs
           end
  end.

(** [l.slice(-n)]: the last [n] elements, or all of [l] when it is
    shorter. *)
Definition slice_last {A} (n : nat) (l : list A) : list A :=
  drop (length l - n) l.

(** The own property [name] of an object. *)
Fixpoint own_property (props : list (string * value)) (name : string)
  : value :=
  match props with
  | [] => VUndefined
  | (k, v) :: props' => if String.eqb k name then v else own_property props' name
  end.

(** [x.name], for the property names the script reads ([type], [content],
    [poll_title], [top_items], [latest_items], [user_items], [id], [text],
    [score], [user_vote]): none of them is a property of a prototype, so a
    string, a Number, a Boolean and an array have none of them. *)
Definition get (x : value) (name : string) : result value :=
  match x with
  | VUndefined =>
      Throw (TypeError ("Cannot read properties of undefined (reading '"
                        +:+ name +:+ "')"))
  | VNull =>
      Throw (TypeError ("Cannot read properties of null (reading '"
                        +:+ name +:+ "')"))
  | VObj props => Return (own_property props name)
  | VBool _ | VNum _ | VStr _ | VArr _ => Return VUndefined
  end.

(** ** The page location *)

Record Location := {
  pathname : string;
  protocol : string;
  host : string;
}.

Definition poll_id_error : exn :=
  Error "Couldn't determine poll ID from this URL.".

(** [anket_getPollID], lines 8-14 of both files.  [urlArr[0]] and
    [urlArr[1]] are read only when [urlArr.length] is 2. *)
Definition anket_getPollID (location : Location) : result string :=
  let urlArr := slice_last 2 (split "/" (pathname location)) in
  if bool_decide (length urlArr < 2)%nat then Throw poll_id_error
  else match urlArr !! 0%nat, urlArr !! 1%nat with
       | Some u0, Some u1 =>
           if negb (String.eqb u0 "p") || bool_decide (String.length u1 = 0%nat)
           then Throw poll_id_error
           else Return u1
       | _, _ => Throw (TypeError "Cannot read properties of undefined")
       end.

(** [anket_getWSUrl], lines 16-19 of src/templates/poll.js. *)
Definition anket_getWSUrl (location : Location) (pollID : string) : string :=
  let scheme := if String.eqb (protocol location) "https:" then "wss" else "ws" in
  scheme +:+ "://" +:+ host location +:+ "/p/" +:+ pollID +:+ "/ws".

(** ** Document nodes *)

(** A reference to a node is the path to it (child indices) from the
    element the reference is used under: the [#poll-canvas] element for
    the references the script keeps in [anket.canvas], the item for the
    references [anket_makeItem] takes with [querySelector].  The script
    replaces the content of [#poll-canvas] only right before it takes
    the references of [anket.canvas] anew, and it replaces the content
    of a list only as a whole, so a path denotes the element it was
    taken for as long as the script uses it. *)
Definition path := list nat.

(** The functions the script installs as listeners, closure converted.
    The two click closures of [anket_makeItem] capture [id] and [item];
    [item] is the element under which the button was found, kept as the
    number of levels between the button and it. *)
Inductive listener :=
  | form_submit
  | buttonUp_onclick (item_above : nat) (id : value)
  | buttonDown_onclick (item_above : nat) (id : value).

(** An element holds its tag, its attributes, its [value] (the text of an
    input field, empty elsewhere), the listeners installed on it by event
    type, and its children. *)
Record element_of (N : Type) := mkElement {
  tag : string;
  attrs : list (string * string);
  value_of : string;
  listeners : list (string * listener);
  children : list N;
}.
Arguments mkElement {N}.
Arguments tag {N}.
Arguments attrs {N}.
Arguments value_of {N}.
Arguments listeners {N}.
Arguments children {N}.

Inductive node :=
  | Text (data : string)
  | Element (e : element_of node).

Abbreviation element := (element_of node).

(** An element as the HTML parser makes it: no listener, empty value. *)
Definition parsed (tag : string) (attrs : list (string * string))
    (children : list node) : node :=
  Element {| tag := tag; attrs := attrs; value_of := ""; listeners := [];
             children := children |}.

Definition with_children (cs : list node) (e : element) : element :=
  {| tag := tag e; attrs := attrs e; value_of := value_of e;
     listeners := listeners e; children := cs |}.

Definition with_attrs (a : list (string * string)) (e : element) : element :=
  {| tag := tag e; attrs := a; value_of := value_of e;
     listeners := listeners e; children := children e |}.

Definition with_value (v : string) (e : element) : element :=
  {| tag := tag e; attrs := attrs e; value_of := v;
     listeners := listeners e; children := children e |}.

Definition with_listeners (l : list (string * listener)) (e : element)
  : element :=
  {| tag := tag e; attrs := attrs e; value_of := value_of e;
     listeners := l; children := children e |}.

(** *** Attributes *)

Definition lower (c : ascii) : ascii :=
  let n := nat_of_ascii c in
  if bool_decide (65 ≤ n ≤ 90)%nat then ascii_of_nat (n + 32) else c.

(** ASCII lowercase: [setAttribute] and [getAttribute] lowercase the
    name they are given in an HTML document. *)
Fixpoint lowercase (s : string) : string :=
  match s with
  | "" => ""
  | String c s' => String (lower c) (lowercase s')
  end.

Fixpoint assoc {A} (k : string) (l : list (string * A)) : option A :=
  match l with
  | [] => None
  | (k', v) :: l' => if String.eqb k' k then Some v else assoc k l'
  end.

(** Sets the first entry for [k], or adds one at the end. *)
Fixpoint assoc_set {A} (k : string) (v : A) (l : list (string * A))
  : list (string * A) :=
  match l with
  | [] => [(k, v)]
  | (k', v') :: l' =>
      if String.eqb k' k then (k, v) :: l' else (k', v') :: assoc_set k v l'
  end.

(** [e.getAttribute(name)]; [None] is [null]. *)
Definition getAttribute (e : element) (name : string) : option string :=
  assoc (lowercase name) (attrs e).

(** [e.setAttribute(name, v)]: the value is converted to a string. *)
Definition setAttribute (e : element) (name : string) (v : value) : element :=
  with_attrs (assoc_set (lowercase name) (ToString v) (attrs e)) e.

(** *** innerText and innerHTML *)

Definition CR : ascii := ascii_of_nat 13.
Definition LF : ascii := ascii_of_nat 10.

(** The rendered text fragment of a string: its lines as text nodes, a
    [br] element for every line break (LF, CR or CR LF), and no text
    node for an empty line.  [cur] is the line read so far, reversed. *)
Fixpoint text_fragment (cur : string) (s : string) : list node :=
  let flush := if bool_decide (cur = "") then [] else [Text (String.rev cur)] in
  match s with
  | "" => flush
  | String c s' =>
      if Ascii.eqb c LF then flush ++ parsed "br" [] [] :: text_fragment "" s'
      else if Ascii.eqb c CR then
        flush ++ parsed "br" [] [] ::
          match s' with
          | String c' s'' =>
              if Ascii.eqb c' LF then text_fragment "" s''
              else text_fragment "" s'
          | "" => text_fragment "" s'
          end
      else text_fragment (String c cur) s'
  end.

(** The string an [innerText] setter receives: [null] is the empty
    string there, any other value its [ToString]. *)
Definition innerText_string (v : value) : string :=
  match v with
  | VNull => ""
  | _ => ToString v
  end.

(** [e.innerText = v]: the children become the rendered text fragment. *)
Definition set_innerText (v : value) (e : element) : element :=
  with_children (text_fragment "" (innerText_string v)) e.

(** [e.innerHTML = html], for markup already parsed into [nodes]. *)
Definition set_innerHTML (nodes : list node) (e : element) : element :=
  with_children nodes e.

(** [e.appendChild(c)] for a node [c] that has no parent yet. *)
Definition appendChild (c : node) (e : element) : element :=
  with_children (children e ++ [c]) e.

(** *** Selectors *)

(** The two selector forms the script uses: [#id] and [.class]. *)
Definition matches (selector : string) (e : element) : bool :=
  match selector with
  | String "#" id => bool_decide (assoc "id" (attrs e) = Some id)
  | String "." cls =>
      match assoc "class" (attrs e) with
      | Some classes => bool_decide (cls ∈ String.words classes)
      | None => false
      end
  | _ => false
  end.

Definition first_child (f : node → option path)
  : list node → nat → option path :=
  fix go cs i :=
    match cs with
    | [] => None
    | c :: cs' =>
        match f c with
        | Some p => Some (i :: p)
        | None => go cs' (S i)
        end
    end.

(** The first element matching the selector among a node and its
    descendants, in tree order. *)
Fixpoint match_or_descend (selector : string) (n : node) : option path :=
  match n with
  | Text _ => None
  | Element e =>
      if matches selector e then Some []
      else first_child (match_or_descend selector) (children e) 0%nat
  end.

(** [e.querySelector(selector)]: the first matching descendant of [e];
    [None] is [null]. *)
Definition querySelector (selector : string) (e : element) : option path :=
  first_child (match_or_descend selector) (children e) 0%nat.

(** *** Following and updating references *)

Fixpoint get_at (e : element) (p : path) : option element :=
  match p with
  | [] => Some e
  | i :: p' =>
      match children e !! i with
      | Some (Element c) => get_at c p'
      | _ => None
      end
  end.

(** Applies [f] to the element at [p]; a path that leads nowhere leaves
    the tree as it is. *)
Fixpoint update_at (p : path) (f : element → element) (e : element)
  : element :=
  match p with
  | [] => f e
  | i :: p' =>
      match children e !! i with
      | Some (Element c) =>
          with_children (<[i := Element (update_at p' f c)]> (children e)) e
      | _ => e
      end
  end.

(** [prefixb p q]: the node at [p] is the node at [q] or one of its
    ancestors. *)
Fixpoint prefixb (p q : path) : bool :=
  match p, q with
  | [], _ => true
  | i :: p', j :: q' => Nat.eqb i j && prefixb p' q'
  | _ :: _, [] => false
  end.

(** No node of [ps] is another one or an ancestor of another one. *)
Fixpoint separate (ps : list path) : bool :=
  match ps with
  | [] => true
  | p :: ps' =>
      forallb (λ q, negb (prefixb p q) && negb (prefixb q p)) ps'
      && separate ps'
  end.

(** ** The markup of the script, parsed *)

(** The text node of a line break followed by [n] spaces. *)
Definition indent (n : nat) : node :=
  Text (String LF (string_of_list_ascii (replicate n " "%char))).

(** [anket_HTML.item], the same in both files. *)
Definition anket_HTML_item : list node :=
  [ indent 0;
    parsed "div" [("class", "option-card")]
      [ indent 2;
        parsed "div" [("class", "option-vote")]
          [ indent 4;
            parsed "button"
              [("class", "pure-button option-vote-button option-vote-up")] [];
            indent 4;
            parsed "div" [("class", "option-score")] [];
            indent 4;
            parsed "button"
              [("class", "pure-button option-vote-button option-vote-down")] [];
            indent 2 ];
        indent 2;
        parsed "div" [("class", "option-content")] [];
        indent 0 ];
    indent 0 ].

(** One column of the second grid of [anket_HTML.canvas_init]. *)
Definition items_column (cls heading id : string) : node :=
  parsed "div" [("class", cls)]
    [ indent 4;
      parsed "h2" [("class", "text-center")] [Text heading];
      indent 4;
      parsed "div" [("id", id)] [];
      indent 2 ].

Definition items_grid (cls : string) : node :=
  parsed "div" [("class", "pure-g")]
    [ indent 2;
      items_column cls "Top Voted Items" "anket-itemsTop";
      indent 2;
      items_column cls "Recently Added Items" "anket-itemsLatest";
      indent 2;
      items_column cls "My Items" "anket-itemsUser";
      indent 0 ].

Definition form_grid (form_attrs input_attrs button_attrs
    : list (string * string)) : node :=
  parsed "div" [("class", "pure-g")]
    [ indent 2;
      parsed "div" [("class", "pure-u-1")]
        [ indent 4;
          parsed "h1" [("id", "anket-pollTitle")] [];
          indent 4;
          parsed "form" form_attrs
            [ indent 6;
              parsed "fieldset" []
                [ indent 8;
                  parsed "legend" [] [Text "Create an option for this poll"];
                  indent 8;
                  parsed "input" input_attrs [];
                  indent 8;
                  parsed "button" button_attrs
                    [ Text (String LF "          Create"
                            +:+ String LF "        ") ];
                  indent 6 ];
              indent 4 ];
          indent 2 ];
      indent 0 ].

(** "<p>connecting to poll...</p>" *)
Definition connecting_notice : list node :=
  [ parsed "p" [] [Text "connecting to poll..."] ].

(** ** The page state *)

(** The socket as the script sees it: the URL it was constructed with,
    the listeners added to it, and the values whose [JSON.stringify] was
    passed to [send], oldest first.  What the browser does with them
    depends on the state of the connection, which is not modelled. *)
Inductive socket_listener :=
  | on_close
  | on_error
  | on_open
  | on_message.

Record WebSocket := {
  url : string;
  socket_listeners : list (string * socket_listener);
  sent : list value;
}.

(** [anket.canvas]: every property is a reference into the
    [#poll-canvas] subtree; [None] is [undefined] or [null]. *)
Record Canvas := {
  self : option path;
  title : option path;
  form : option path;
  top_items : option path;
  latest_items : option path;
  user_items : option path;
}.

Record Page := {
  location : Location;
  poll_canvas : option element;   (* document.getElementById("poll-canvas") *)
  canvas : Canvas;                (* anket.canvas *)
  socket : option WebSocket;      (* anket.socket *)
  alerts : list string;           (* the messages alert() has shown *)
  defaultPrevented : bool;        (* of the event being dispatched *)
  uncaught : list exn;            (* exceptions that left a listener *)
}.

Definition set_poll_canvas (e : option element) (st : Page) : Page :=
  {| location := location st; poll_canvas := e; canvas := canvas st;
     socket := socket st; alerts := alerts st;
     defaultPrevented := defaultPrevented st; uncaught := uncaught st |}.

Definition set_canvas (c : Canvas) (st : Page) : Page :=
  {| location := location st; poll_canvas := poll_canvas st; canvas := c;
     socket := socket st; alerts := alerts st;
     defaultPrevented := defaultPrevented st; uncaught := uncaught st |}.

Definition set_socket (s : option WebSocket) (st : Page) : Page :=
  {| location := location st; poll_canvas := poll_canvas st;
     canvas := canvas st; socket := s; alerts := alerts st;
     defaultPrevented := defaultPrevented st; uncaught := uncaught st |}.

Definition set_alerts (a : list string) (st : Page) : Page :=
  {| location := location st; poll_canvas := poll_canvas st;
     canvas := canvas st; socket := socket st; alerts := a;
     defaultPrevented := defaultPrevented st; uncaught := uncaught st |}.

Definition set_defaultPrevented (b : bool) (st : Page) : Page :=
  {| location := location st; poll_canvas := poll_canvas st;
     canvas := canvas st; socket := socket st; alerts := alerts st;
     defaultPrevented := b; uncaught := uncaught st |}.

Definition set_uncaught (u : list exn) (st : Page) : Page :=
  {| location := location st; poll_canvas := poll_canvas st;
     canvas := canvas st; socket := socket st; alerts := alerts st;
     defaultPrevented := defaultPrevented st; uncaught := u |}.

(** The page when the script is loaded: [anket = { canvas: {}, socket:
    null }]. *)
Definition empty_canvas : Canvas :=
  {| self := None; title := None; form := None; top_items := None;
     latest_items := None; user_items := None |}.

Definition loaded (loc : Location) (poll_canvas : option element) : Page :=
  {| location := loc; poll_canvas := poll_canvas; canvas := empty_canvas;
     socket := None; alerts := []; defaultPrevented := false;
     uncaught := [] |}.

(** ** Computations over the page *)

Definition M (A : Type) : Type := Page → result A * Page.

Definition ret {A} (a : A) : M A := λ st, (Return a, st).

Definition throw {A} (e : exn) : M A := λ st, (Throw e, st).

Definition bind {A B} (m : M A) (k : A → M B) : M B :=
  λ st, match m st with
        | (Return a, st') => k a st'
        | (Throw e, st') => (Throw e, st')
        end.

Definition lift {A} (r : result A) : M A := λ st, (r, st).

Notation "'let?' x ':=' r 'in' k" := (result_bind r (λ x, k))
  (at level 10, x name, r at level 100, k at level 200).

Definition gets {A} (f : Page → A) : M A := λ st, (Return (f st), st).

Definition modify (f : Page → Page) : M unit := λ st, (Return tt, f st).

Declare Scope js_scope.
Delimit Scope js_scope with js.
Notation "'let!' x ':=' m 'in' k" := (bind m (λ x, k))
  (at level 10, x name, m at level 100, k at level 200) : js_scope.
Notation "m ';;;' k" := (bind m (λ _, k))
  (at level 100, k at level 200, right associativity) : js_scope.
Open Scope js_scope.

(** [l.forEach(f)] on the elements of an array. *)
Fixpoint forEach {A} (f : A → M unit) (l : list A) : M unit :=
  match l with
  | [] => ret tt
  | x :: l' => f x ;;; forEach f l'
  end.

Definition null_reference (what : string) : exn :=
  TypeError ("Cannot access properties of null or undefined (" +:+ what +:+ ")").

(** The element a reference of [anket.canvas] denotes. *)
Definition deref (what : string) (r : option path) : M element :=
  λ st, match r, poll_canvas st with
        | Some p, Some root =>
            match get_at root p with
            | Some e => (Return e, st)
            | None => (Throw (null_reference what), st)
            end
        | _, _ => (Throw (null_reference what), st)
        end.

(** A mutation of the element a reference of [anket.canvas] denotes. *)
Definition mutate (what : string) (r : option path) (f : element → element)
  : M unit :=
  deref what r ;;;
  modify (λ st, set_poll_canvas
                  (match r with
                   | Some p => update_at p f <$> poll_canvas st
                   | None => poll_canvas st
                   end) st).

(** [r.querySelector(selector)], as a reference of the same kind. *)
Definition query (what : string) (r : option path) (selector : string)
  : M (option path) :=
  let! e := deref what r in
  ret (match r, querySelector selector e with
       | Some p, Some q => Some (p ++ q)%list
       | _, _ => None
       end).

(** [alert(message)] *)
Definition alert (message : value) : M unit :=
  modify (λ st, set_alerts (alerts st ++ [ToString message]) st).

(** [anket.socket.send(JSON.stringify(v))] *)
Definition socket_send (v : value) : M unit :=
  λ st, match socket st with
        | None => (Throw (null_reference "anket.socket.send"), st)
        | Some ws =>
            (Return tt,
             set_socket (Some {| url := url ws;
                                 socket_listeners := socket_listeners ws;
                                 sent := sent ws ++ [v] |}) st)
        end.

(** ** The functions both files share *)

(** [anket_sendVoteItemMsg], lines 82-87 (64-69 in the older file). *)
Definition anket_sendVoteItemMsg (itemID voteValue : value) : M unit :=
  socket_send
    (VObj [("type", VStr "VoteItem");
           ("content", VObj [("item_id", itemID); ("vote", voteValue)])]).

(** [target.prop = ...] inside [anket_makeItem], where [target] was
    taken with [item.querySelector]. *)
Definition item_assign (what : string) (target : option path)
    (f : element → element) (item : element) : result element :=
  match target with
  | Some p => Return (update_at p f item)
  | None => Throw (null_reference what)
  end.

(** [button.onclick = l] *)
Definition set_onclick (l : listener) (e : element) : element :=
  with_listeners (assoc_set "click" l (listeners e)) e.

(** [document.createElement(tag)] *)
Definition createElement (tag : string) : element :=
  {| tag := tag; attrs := []; value_of := ""; listeners := [];
     children := [] |}.

Section shared.
Context `{!Platform}.

(** [anket_makeItem], lines 43-73 (25-55 in the older file). *)
Definition anket_makeItem (details : value) : result element :=
  let? id := get details "id" in
  let item := createElement "div" in
  let item := set_innerHTML anket_HTML_item item in
  let item := setAttribute item "anket-itemID" id in
  let? user_vote := get details "user_vote" in
  let item := setAttribute item "anket-itemUserVote" user_vote in
  let score := querySelector ".option-score" item in
  let content := querySelector ".option-content" item in
  let buttonUp := querySelector ".option-vote-up" item in
  let buttonDown := querySelector ".option-vote-down" item in
  let? details_score := get details "score" in
  let? item := item_assign "score.innerText" score
                 (set_innerText details_score) item in
  let? details_text := get details "text" in
  let? item := item_assign "content.innerText" content
                 (set_innerText details_text) item in
  let? user_vote := get details "user_vote" in
  let? item := item_assign "buttonUp.innerText" buttonUp
                 (set_innerText
                    (VStr (if loose_eq_num user_vote 1 then "⬆" else "⇧")))
                 item in
  let? user_vote := get details "user_vote" in
  let? item := item_assign "buttonDown.innerText" buttonDown
                 (set_innerText
                    (VStr (if loose_eq_num user_vote (-1) then "⬇" else "⇩")))
                 item in
  let? item := item_assign "buttonUp.onclick" buttonUp
                 (set_onclick
                    (buttonUp_onclick (length (default [] buttonUp)) id))
                 item in
  let? item := item_assign "buttonDown.onclick" buttonDown
                 (set_onclick
                    (buttonDown_onclick (length (default [] buttonDown)) id))
                 item in
  Return item.

(** [anket_renderItems], lines 75-80 (57-62 in the older file).
    [items.forEach] exists on arrays only. *)
Definition anket_renderItems (items : value) (target : option path)
  : M unit :=
  mutate "target.innerHTML" target (set_innerHTML []) ;;;
  match items with
  | VArr elts =>
      forEach (λ details,
                 let! item := lift (anket_makeItem details) in
                 mutate "target.appendChild" target
                   (appendChild (Element item)))
              elts
  | VUndefined | VNull =>
      throw (TypeError "Cannot read properties of undefined (reading 'forEach')")
  | _ => throw (TypeError "items.forEach is not a function")
  end.
End shared.

(** The bodies of the two click closures of [anket_makeItem], lines
    61-70 (43-52 in the older file); [item] is the captured element as
    it is when the button is clicked. *)
Definition buttonUp_click (item : element) (id : value) : M unit :=
  let current := getAttribute item "anket-itemUserVote" in
  let value := if bool_decide (current = Some "1") then 0 else 1 in
  anket_sendVoteItemMsg id (VNum value).

Definition buttonDown_click (item : element) (id : value) : M unit :=
  let current := getAttribute item "anket-itemUserVote" in
  let value := if bool_decide (current = Some "-1") then 0 else -1 in
  anket_sendVoteItemMsg id (VNum value).

(** The two listeners of [anket_main] for the end of the connection,
    lines 97-103 (79-85 in the older file).  The event is not read. *)
Record Event := {
  wasClean : bool;
  code : Z;
  reason : string;
}.

Definition close_listener (event : Event) : M unit :=
  alert (VStr "websocket connection closed").

Definition error_listener (event : Event) : M unit :=
  alert (VStr "websocket connection lost").

(** The two [case] bodies of the message listener, lines 112-122
    (94-103 in the older file), each without its [break]. *)
Definition case_ActionResponse (data : value) : M unit :=
  let! content := lift (get data "content") in
  alert content.

Section cases.
Context `{!Platform}.

Definition case_PollStateUpdate (data : value) : M unit :=
  let! content := lift (get data "content") in
  let! poll_title := lift (get content "poll_title") in
  let! c := gets canvas in
  mutate "anket.canvas.title.innerText" (title c) (set_innerText poll_title) ;;;
  let! content := lift (get data "content") in
  let! items := lift (get content "top_items") in
  let! c := gets canvas in
  anket_renderItems items (top_items c) ;;;
  let! content := lift (get data "content") in
  let! items := lift (get content "latest_items") in
  let! c := gets canvas in
  anket_renderItems items (latest_items c) ;;;
  let! content := lift (get data "content") in
  let! items := lift (get content "user_items") in
  let! c := gets canvas in
  anket_renderItems items (user_items c).
End cases.

(** Running a listener as the browser does: an exception that leaves it
    is reported and the mutations made before it stay. *)
Definition run (m : M unit) (st : Page) : Page :=
  match m st with
  | (Return _, st') => st'
  | (Throw e, st') => set_uncaught (uncaught st' ++ [e]) st'
  end.

(** A click on the element at [target]: its click listeners run, each
    with the [item] it captured.  The script puts click listeners on the
    two buttons of an item only, so nothing above the target has one. *)
Definition click_listener (target : path) (l : listener) : M unit :=
  match l with
  | buttonUp_onclick above id =>
      let! item := deref "item" (Some (take (length target - above) target)) in
      buttonUp_click item id
  | buttonDown_onclick above id =>
      let! item := deref "item" (Some (take (length target - above) target)) in
      buttonDown_click item id
  | form_submit => ret tt
  end.

Definition listeners_for {L} (type : string) (ls : list (string * L)) : list L :=
  omap (λ '(t, l), if String.eqb t type then Some l else None) ls.

Definition click (target : path) (st : Page) : Page :=
  match poll_canvas st ≫= (λ root, get_at root target) with
  | Some e =>
      foldl (λ st l, run (click_listener target l) st) st
            (listeners_for "click" (listeners e))
  | None => st
  end.

(** [JSON.parse(event.data)]: the event carries the value its data
    parses to, or nothing when the data is not JSON. *)
Definition JSON_parse (event_data : option value) : result value :=
  match event_data with
  | Some data => Return data
  | None => Throw (Error "SyntaxError: JSON.parse")
  end.

(** [x === s] for a string literal [s], as [switch] compares. *)
Definition strict_eq_string (x : value) (s : string) : bool :=
  match x with
  | VStr s' => String.eqb s' s
  | _ => false
  end.

Definition set_self (r : option path) (c : Canvas) : Canvas :=
  {| self := r; title := title c; form := form c; top_items := top_items c;
     latest_items := latest_items c; user_items := user_items c |}.

Definition set_title (r : option path) (c : Canvas) : Canvas :=
  {| self := self c; title := r; form := form c; top_items := top_items c;
     latest_items := latest_items c; user_items := user_items c |}.

Definition set_form (r : option path) (c : Canvas) : Canvas :=
  {| self := self c; title := title c; form := r; top_items := top_items c;
     latest_items := latest_items c; user_items := user_items c |}.

Definition set_top_items (r : option path) (c : Canvas) : Canvas :=
  {| self := self c; title := title c; form := form c; top_items := r;
     latest_items := latest_items c; user_items := user_items c |}.

Definition set_latest_items (r : option path) (c : Canvas) : Canvas :=
  {| self := self c; title := title c; form := form c;
     top_items := top_items c; latest_items := r;
     user_items := user_items c |}.

Definition set_user_items (r : option path) (c : Canvas) : Canvas :=
  {| self := self c; title := title c; form := form c;
     top_items := top_items c; latest_items := latest_items c;
     user_items := r |}.

(** [anket.canvas.prop = anket.canvas.self.querySelector(selector)] *)
Definition canvas_query (set : option path → Canvas → Canvas)
    (selector : string) : M unit :=
  let! c := gets canvas in
  let! r := query "anket.canvas.self.querySelector" (self c) selector in
  modify (λ st, set_canvas (set r (canvas st)) st).

(** [anket.canvas.self.innerHTML = html] *)
Definition canvas_innerHTML (nodes : list node) : M unit :=
  let! c := gets canvas in
  mutate "anket.canvas.self.innerHTML" (self c) (set_innerHTML nodes).

(** [anket.canvas.self = document.getElementById("poll-canvas")] *)
Definition canvas_getElementById : M unit :=
  modify (λ st, set_canvas
                  (set_self (match poll_canvas st with
                             | Some _ => Some []
                             | None => None
                             end)
                            (canvas st)) st).

(** [anket.socket = new WebSocket(url)].  The constructor is taken to
    accept the URL. *)
Definition new_WebSocket (url : string) : M unit :=
  modify (set_socket (Some {| url := url; socket_listeners := [];
                              sent := [] |})).

(** [anket.socket.addEventListener(type, l)] *)
Definition socket_addEventListener (type : string) (l : socket_listener)
  : M unit :=
  λ st, match socket st with
        | None => (Throw (null_reference "anket.socket.addEventListener"), st)
        | Some ws =>
            (Return tt,
             set_socket (Some {| url := url ws;
                                 socket_listeners :=
                                   socket_listeners ws ++ [(type, l)];
                                 sent := sent ws |}) st)
        end.

(** What can happen to the socket. *)
Inductive socket_event :=
  | Close (event : Event)
  | ConnectionError (event : Event)
  | Open
  | Message (event_data : option value).

Definition event_type (ev : socket_event) : string :=
  match ev with
  | Close _ => "close"
  | ConnectionError _ => "error"
  | Open => "open"
  | Message _ => "message"
  end.

(** What the user can do to an element of the page. *)
Definition type_text (target : path) (text : string) (st : Page) : Page :=
  set_poll_canvas (update_at target (with_value text) <$> poll_canvas st) st.

(** ** src/templates/poll.js *)

Module Frontend.

(** [anket_HTML.canvas_init], lines 128-157. *)
Definition anket_HTML_canvas_init : list node :=
  [ indent 0;
    form_grid
      [("id", "anket-pollForm"); ("class", "pure-form")]
      [("id", "anket-itemText"); ("type", "text");
       ("class", "pure-u-1 pure-u-sm-3-4"); ("placeholder", "Option text")]
      [("type", "submit");
       ("class", "pure-u-3-4 pure-u-sm-5-24 pure-button pure-button-primary")];
    indent 0;
    items_grid "pure-u-1 pure-u-xl-1-3";
    indent 0 ].

(** The submit listener of [anket_initCanvas], lines 26-36. *)
Definition submit_listener : M unit :=
  modify (set_defaultPrevented true) ;;;
  let! c := gets canvas in
  let! input := query "anket.canvas.form.querySelector" (form c)
                  "#anket-itemText" in
  let! e := deref "input.value" input in
  (if (0 <? String.length (value_of e))%nat
   then socket_send
          (VObj [("type", VStr "AddItem");
                 ("content", VObj [("text", VStr (value_of e))])])
   else ret tt) ;;;
  mutate "input.value" input (with_value "").

(** [anket_initCanvas], lines 21-41. *)
Definition anket_initCanvas : M unit :=
  canvas_innerHTML anket_HTML_canvas_init ;;;
  canvas_query set_title "#anket-pollTitle" ;;;
  canvas_query set_form "#anket-pollForm" ;;;
  (let! c := gets canvas in
   mutate "anket.canvas.form.addEventListener" (form c)
     (λ e, with_listeners (listeners e ++ [("submit", form_submit)])%list e)) ;;;
  canvas_query set_top_items "#anket-itemsTop" ;;;
  canvas_query set_latest_items "#anket-itemsLatest" ;;;
  canvas_query set_user_items "#anket-itemsUser".

Section listeners.
Context `{!Platform}.

(** The message listener of [anket_main], lines 109-124. *)
Definition message_listener (event_data : option value) : M unit :=
  let! data := lift (JSON_parse event_data) in
  let! type := lift (get data "type") in
  if strict_eq_string type "ActionResponse" then
    case_ActionResponse data
  else if strict_eq_string type "PollStateUpdate" then
    case_PollStateUpdate data
  else ret tt.

(** [anket_main], lines 89-125. *)
Definition anket_main : M unit :=
  canvas_getElementById ;;;
  canvas_innerHTML [] ;;;
  let! location := gets location in
  let! pollID := lift (anket_getPollID location) in
  canvas_innerHTML connecting_notice ;;;
  new_WebSocket (anket_getWSUrl location pollID) ;;;
  socket_addEventListener "close" on_close ;;;
  socket_addEventListener "error" on_error ;;;
  socket_addEventListener "open" on_open ;;;
  socket_addEventListener "message" on_message.

Definition socket_listener_body (ev : socket_event) (l : socket_listener)
  : M unit :=
  match l, ev with
  | on_close, Close event => close_listener event
  | on_error, ConnectionError event => error_listener event
  | on_open, Open => anket_initCanvas
  | on_message, Message event_data => message_listener event_data
  | _, _ => ret tt
  end.

(** [window.onload] *)
Definition load (st : Page) : Page := run anket_main st.

(** An event of the socket: the listeners added for its type run. *)
Definition socket_dispatch (ev : socket_event) (st : Page) : Page :=
  match socket st with
  | Some ws =>
      foldl (λ st l, run (socket_listener_body ev l) st) st
            (listeners_for (event_type ev) (socket_listeners ws))
  | None => st
  end.

(** The user submits the form at [target]: its submit listeners run
    on an event whose default is not prevented yet. *)
Definition submit (target : path) (st : Page) : Page :=
  let st := set_defaultPrevented false st in
  match poll_canvas st ≫= (λ root, get_at root target) with
  | Some e =>
      foldl (λ st l, match l with
                     | form_submit => run submit_listener st
                     | _ => st
                     end)
            st (listeners_for "submit" (listeners e))
  | None => st
  end.
(** The user types into the text field of the form, the one the
    submit listener reads. *)
Definition item_text_field (st : Page) : option path :=
  at_form ← form (canvas st);
  root ← poll_canvas st;
  f ← get_at root at_form;
  q ← querySelector "#anket-itemText" f;
  Some (at_form ++ q).

Definition type_item_text (text : string) (st : Page) : Page :=
  match item_text_field st with
  | Some at_input => type_text at_input text st
  | None => st
  end.

(** What happens to the page once the socket is open. *)
Inductive event :=
  | Socket (ev : socket_event)
  | Click (target : path)
  | Submit (target : path)
  | TypeItemText (text : string).

Definition handle (e : event) (st : Page) : Page :=
  match e with
  | Socket ev => socket_dispatch ev st
  | Click target => click target st
  | Submit target => submit target st
  | TypeItemText text => type_item_text text st
  end.

(** A page is opened when the script was loaded on a page with a
    [#poll-canvas] element and a poll id in its pathname, and the socket
    opened; the states of the page are the ones events lead to from
    there. *)
Inductive reachable : Page → Prop :=
  | reachable_opened loc root pollID :
      anket_getPollID loc = Return pollID →
      reachable (socket_dispatch Open (load (loaded loc (Some root))))
  | reachable_event st e :
      reachable st → reachable (handle e st).
End listeners.

End Frontend.

(** ** server/src/templates/poll.js *)

Module Server.

(** [anket_HTML.canvas_init], lines 109-138. *)
Definition anket_HTML_canvas_init : list node :=
  [ indent 0;
    form_grid
      [("class", "pure-form")]
      [("class", "pure-input-3-4"); ("type", "text");
       ("placeholder", "Option text")]
      [("type", "submit");
       ("class", "pure-button pure-input-1-4 pure-button-primary")];
    indent 0;
    items_grid "pure-u-1-3";
    indent 0 ].

(** [anket_initCanvas], lines 16-23. *)
Definition anket_initCanvas : M unit :=
  canvas_innerHTML anket_HTML_canvas_init ;;;
  canvas_query set_title "#anket-pollTitle" ;;;
  canvas_query set_top_items "#anket-itemsTop" ;;;
  canvas_query set_latest_items "#anket-itemsLatest" ;;;
  canvas_query set_user_items "#anket-itemsUser".

Section listeners.
Context `{!Platform}.

(** The message listener of [anket_main], lines 91-105: the first
    [case] has no [break], so its body is followed by the body of
    the second. *)
Definition message_listener (event_data : option value) : M unit :=
  let! data := lift (JSON_parse event_data) in
  let! type := lift (get data "type") in
  if strict_eq_string type "ActionResponse" then
    case_ActionResponse data ;;;
    case_PollStateUpdate data
  else if strict_eq_string type "PollStateUpdate" then
    case_PollStateUpdate data
  else ret tt.

(** [anket_main], lines 71-106. *)
Definition anket_main : M unit :=
  canvas_getElementById ;;;
  canvas_innerHTML [] ;;;
  let! location := gets location in
  let! pollID := lift (anket_getPollID location) in
  canvas_innerHTML connecting_notice ;;;
  new_WebSocket ("/p/" +:+ pollID +:+ "/ws") ;;;
  socket_addEventListener "close" on_close ;;;
  socket_addEventListener "error" on_error ;;;
  socket_addEventListener "open" on_open ;;;
  socket_addEventListener "message" on_message.

Definition socket_listener_body (ev : socket_event) (l : socket_listener)
  : M unit :=
  match l, ev with
  | on_close, Close event => close_listener event
  | on_error, ConnectionError event => error_listener event
  | on_open, Open => anket_initCanvas
  | on_message, Message event_data => message_listener event_data
  | _, _ => ret tt
  end.

Definition load (st : Page) : Page := run anket_main st.

Definition socket_dispatch (ev : socket_event) (st : Page) : Page :=
  match socket st with
  | Some ws =>
      foldl (λ st l, run (socket_listener_body ev l) st) st
            (listeners_for (event_type ev) (socket_listeners ws))
  | None => st
  end.
End listeners.

End Server.

(** ** The model at work *)

Definition example_location : Location :=
  {| pathname := "/p/abc"; protocol := "https:"; host := "anket.example" |}.

Definition empty_poll_canvas : element :=
  {| tag := "div"; attrs := [("id", "poll-canvas")]; value_of := "";
     listeners := []; children := [] |}.

Definition example_item (id : Z) (text : string) (score user_vote : Z)
  : value :=
  VObj [("id", VNum id); ("text", VStr text); ("score", VNum score);
        ("user_vote", VNum user_vote)].

Definition example_update : value :=
  VObj [("type", VStr "PollStateUpdate");
        ("content",
         VObj [("poll_title", VStr "Lunch");
               ("top_items", VArr [example_item 7 "Pizza" 1 1;
                                   example_item 8 "Soup" 0 (-1)]);
               ("latest_items", VArr [example_item 8 "Soup" 0 (-1);
                                      example_item 7 "Pizza" 1 1]);
               ("user_items", VArr [example_item 7 "Pizza" 1 1])])].

(** The page of [example_location] after [window.onload] and the open
    event of the socket, under src/templates/poll.js. *)
Definition opened_page : Page :=
  Eval vm_compute in
    @Frontend.socket_dispatch decimal_platform Open
      (Frontend.load (loaded example_location (Some empty_poll_canvas))).

Definition opened_root : element :=
  Eval vm_compute in default empty_poll_canvas (poll_canvas opened_page).

(** The same page after the server sent [example_update]. *)
Definition updated_page : Page :=
  Eval vm_compute in
    @Frontend.socket_dispatch decimal_platform (Message (Some example_update))
      opened_page.

Definition updated_root : element :=
  Eval vm_compute in default empty_poll_canvas (poll_canvas updated_page).

Definition example_ActionResponse : value :=
  VObj [("type", VStr "ActionResponse"); ("content", VStr "Text is empty")].

(** The same two pages under server/src/templates/poll.js. *)
Definition server_opened_page : Page :=
  Eval vm_compute in
    @Server.socket_dispatch decimal_platform Open
      (Server.load (loaded example_location (Some empty_poll_canvas))).

Definition server_updated_page : Page :=
  Eval vm_compute in
    @Server.socket_dispatch decimal_platform (Message (Some example_update))
      server_opened_page.

(** ** The vocabulary of the properties *)

(** What an element shows under its first descendant matching a
    selector: the children of that descendant. *)
Definition shown (selector : string) (item : element) : option (list node) :=
  p ← querySelector selector item; children <$> get_at item p.

(** The message [anket_sendVoteItemMsg] builds. *)
Definition VoteItem (item_id : value) (vote : Z) : value :=
  VObj [("type", VStr "VoteItem");
        ("content", VObj [("item_id", item_id); ("vote", VNum vote)])].

(** The message the submit listener builds. *)
Definition AddItem (text : string) : value :=
  VObj [("type", VStr "AddItem"); ("content", VObj [("text", VStr text)])].

(** The page after one more value went to [anket.socket.send]. *)
Definition with_sent (v : value) (st : Page) : Page :=
  set_socket ((λ ws, {| url := url ws;
                        socket_listeners := socket_listeners ws;
                        sent := sent ws ++ [v] |}) <$> socket st) st.

(** The page after one more alert. *)
Definition with_alert (message : string) (st : Page) : Page :=
  set_alerts (alerts st ++ [message]) st.

(** The page is ready to show a poll: [anket.canvas] refers to a title
    element and three list containers of the [#poll-canvas] subtree, and
    none of the four is another one or inside another one. *)
Definition views_ready (st : Page) (root : element)
    (at_title at_top at_latest at_user : path) : Prop :=
  poll_canvas st = Some root ∧
  title (canvas st) = Some at_title ∧
  top_items (canvas st) = Some at_top ∧
  latest_items (canvas st) = Some at_latest ∧
  user_items (canvas st) = Some at_user ∧
  is_Some (get_at root at_title) ∧
  is_Some (get_at root at_top) ∧
  is_Some (get_at root at_latest) ∧
  is_Some (get_at root at_user) ∧
  separate [at_title; at_top; at_latest; at_user] = true.

(** The children of the element a reference of [anket.canvas] denotes. *)
Definition content_of (r : option path) (st : Page) : option (list node) :=
  p ← r; root ← poll_canvas st; children <$> get_at root p.

(** The listeners [anket_main] adds to the socket, in both files. *)
Definition main_listeners : list (string * socket_listener) :=
  [("close", on_close); ("error", on_error); ("open", on_open);
   ("message", on_message)].

(** The page has the form of src/templates/poll.js: [anket.canvas.form]
    refers to an element [f] with the submit listener of
    [anket_initCanvas], the input field [#anket-itemText] is found under
    it at [at_input], holding [text], and the socket exists. *)
Definition form_ready (st : Page) (at_form at_input : path) (text : string)
  : Prop :=
  ∃ root f input q ws,
    poll_canvas st = Some root ∧
    form (canvas st) = Some at_form ∧
    get_at root at_form = Some f ∧
    listeners_for "submit" (listeners f) = [form_submit] ∧
    querySelector "#anket-itemText" f = Some q ∧
    at_input = at_form ++ q ∧
    get_at f q = Some input ∧
    value_of input = text ∧
    socket st = Some ws.

(** The values that went to [anket.socket.send] so far. *)
Definition sent_so_far (st : Page) : list value :=
  default [] (sent <$> socket st).

(** The text of the element at a path. *)
Definition value_at (target : path) (st : Page) : option string :=
  root ← poll_canvas st; value_of <$> get_at root target.

(** The text without the white space at its two ends. *)
Definition is_white_space (c : ascii) : bool :=
  bool_decide (nat_of_ascii c ∈ [9; 10; 11; 12; 13; 32]%nat).

Fixpoint trim_start (s : string) : string :=
  match s with
  | "" => ""
  | String c s' => if is_white_space c then trim_start s' else s
  end.

Definition trim (s : string) : string :=
  String.rev (trim_start (String.rev (trim_start s))).

(** The claim that the text decides after trimming: a submission sends
    an AddItem message if and only if the text of the input field is not
    empty once trimmed. *)
Definition AddItem_iff_trimmed_text_not_empty
    (st : Page) (at_form : path) (text : string) : Prop :=
  (∃ t, sent_so_far (Frontend.submit at_form st) = sent_so_far st ++ [AddItem t])
  ↔ trim text ≠ "".

(** [anket.canvas] as [anket_initCanvas] of src/templates/poll.js
    leaves it. *)
Definition opened_canvas : Canvas :=
  {| self := Some []; title := Some [1; 1; 1]%nat; form := Some [1; 1; 3]%nat;
     top_items := Some [3; 1; 3]%nat; latest_items := Some [3; 3; 3]%nat;
     user_items := Some [3; 5; 3]%nat |}.

(** The page shows a poll and its form, and the socket has the
    listeners of [anket_main]. *)
Definition page_ready (st : Page) : Prop :=
  ∃ root text ws,
    canvas st = opened_canvas ∧
    views_ready st root [1; 1; 1]%nat [3; 1; 3]%nat [3; 3; 3]%nat [3; 5; 3]%nat ∧
    form_ready st [1; 1; 3]%nat [1; 1; 3; 1; 3]%nat text ∧
    socket st = Some ws ∧
    socket_listeners ws = main_listeners.

(** A computation that keeps a property of the page, whether it returns
    or throws. *)
Definition keeps (I : Page → Prop) {A} (m : M A) : Prop :=
  ∀ st, I st → I (m st).2.

Section rendered_items.
Context `{!Platform}.

(** The elements [anket_makeItem] builds for the entries of a list,
    one per entry and in the order of the list. *)
Definition rendered (items : list value) (els : list element) : Prop :=
  Forall2 (λ details el, anket_makeItem details = Return el) items els.
End rendered_items.

(** ** The vocabulary of the further properties *)

(** The character occurs in the string. *)
Fixpoint contains (c : ascii) (s : string) : bool :=
  match s with
  | "" => false
  | String c' s' => Ascii.eqb c' c || contains c s'
  end.

(** The element [anket_makeItem] builds for the first item of the
    example. *)
Definition example_item_element : element :=
  Eval vm_compute in
    match @anket_makeItem decimal_platform (example_item 7 "Pizza" 1 1) with
    | Return item => item
    | Throw _ => createElement "div"
    end.

(** A property of the page that looks at its location and its socket
    only. *)
Definition about_connection (I : Page → Prop) : Prop :=
  ∀ st st', location st' = location st → socket st' = socket st → I st → I st'.

(** The two messages of the protocol as the client may send them: an
    AddItem with a text that is not empty, a VoteItem with a vote of -1,
    0 or 1. *)
Definition valid_message (v : value) : Prop :=
  (∃ text, v = AddItem text ∧ text ≠ "") ∨
  (∃ item_id vote, v = VoteItem item_id vote ∧ vote ∈ [-1; 0; 1]).

(** The element at [q] is none of the four views of the page, is in
    none of them and holds none of them. *)
Definition outside_views (q : path) : bool :=
  forallb (λ p, negb (prefixb p q) && negb (prefixb q p))
          [[1; 1; 1]; [3; 1; 3]; [3; 3; 3]; [3; 5; 3]]%nat.

(** The element a path denotes in the page. *)
Definition element_at (q : path) (st : Page) : option element :=
  root ← poll_canvas st; get_at root q.

(** The function changes the children of an element and nothing else
    of it, as [innerText], [innerHTML] and [appendChild] do. *)
Definition changes_children_only (f : element → element) : Prop :=
  ∀ x, f x = with_children (children (f x)) x.

(** The tree with the children of the listed elements replaced, the last
    one of the list first. *)
Definition replace_children (views : list (path * list node)) (root : element)
  : element :=
  foldr (λ '(p, c), update_at p (with_children c)) root views.

(** A poll state update of the wire shape: a content with a title and
    three arrays of item objects. *)
Definition poll_state_update (data content poll_title : value)
    (tops latests users : list value) : Prop :=
  get data "type" = Return (VStr "PollStateUpdate") ∧
  get data "content" = Return content ∧
  get content "poll_title" = Return poll_title ∧
  get content "top_items" = Return (VArr tops) ∧
  get content "latest_items" = Return (VArr latests) ∧
  get content "user_items" = Return (VArr users) ∧
  Forall (λ details, ∃ props, details = VObj props) (tops ++ latests ++ users).

(** * Properties *)

(** ** The model on small inputs *)

Example split_poll_page : split "/" "/p/abc" = [""; "p"; "abc"].
Proof. reflexivity. Qed.

Example getPollID_poll_page :
  anket_getPollID {| pathname := "/p/abc"; protocol := "http:"; host := "h" |}
  = Return "abc".
Proof. reflexivity. Qed.

Example getPollID_trailing_slash :
  anket_getPollID {| pathname := "/p/abc/"; protocol := "http:"; host := "h" |}
  = Throw poll_id_error.
Proof. reflexivity. Qed.

Example ToString_examples :
  ToString (VNum (-1)) = "-1" ∧ ToString (VArr [VNum 1; VNull; VStr "a"]) = "1,,a".
Proof. split; reflexivity. Qed.


(** An up vote and the same click again: the user clicks the up button
    of "Soup" (second top item, user vote -1), the server answers with a
    state in which the user vote is 1, and the user clicks again. *)
Example second_click_takes_the_vote_back :
  let up_of_soup := [3; 1; 3; 1; 1; 1; 1]%nat in
  let answer :=
    VObj [("type", VStr "PollStateUpdate");
          ("content",
           VObj [("poll_title", VStr "Lunch");
                 ("top_items", VArr [example_item 7 "Pizza" 1 1;
                                     example_item 8 "Soup" 2 1]);
                 ("latest_items", VArr []);
                 ("user_items", VArr [])])] in
  let st1 := click up_of_soup updated_page in
  let st2 := @Frontend.socket_dispatch decimal_platform (Message (Some answer))
               st1 in
  let st3 := click up_of_soup st2 in
  sent_so_far st3 = [VoteItem (VNum 8) 1; VoteItem (VNum 8) 0].
Proof. vm_compute. reflexivity. Qed.

(** ** The poll id of a page *)

Lemma split_nonempty sep s : split sep s ≠ [].
Proof. destruct s as [|c s]; simpl; [done|]. repeat case_match; done. Qed.

(** A list is empty, a singleton, or ends in two elements. *)
Lemma last_two {A} (l : list A) :
  l = [] ∨ (∃ x, l = [x]) ∨ ∃ pre a b, l = (pre ++ [a; b])%list.
Proof.
  destruct l as [|b l' _] using rev_ind; [by left|]. right.
  destruct l' as [|a pre _] using rev_ind; [left; by exists b|].
  right. exists pre, a, b. by rewrite <- app_assoc.
Qed.

Lemma slice_last_two {A} (pre : list A) a b :
  slice_last 2 (pre ++ [a; b]) = [a; b].
Proof.
  unfold slice_last. rewrite length_app. simpl.
  replace (length pre + 2 - 2)%nat with (length pre) by lia.
  by rewrite drop_app_length.
Qed.

(** What [anket_getPollID] does, by the shape of the path. *)
Lemma getPollID_two loc pre a b :
  split "/" (pathname loc) = (pre ++ [a; b])%list →
  anket_getPollID loc =
    if bool_decide (a = "p" ∧ b ≠ "") then Return b else Throw poll_id_error.
Proof.
  intros Hsegs. unfold anket_getPollID. rewrite Hsegs, slice_last_two. simpl.
  destruct (String.eqb_spec a "p") as [->|Ha]; simpl.
  - by destruct b as [|c b].
  - rewrite bool_decide_false; [done|]. by intros [? _].
Qed.

Lemma getPollID_one loc x :
  split "/" (pathname loc) = [x] → anket_getPollID loc = Throw poll_id_error.
Proof. intros Hsegs. unfold anket_getPollID. by rewrite Hsegs. Qed.

(** C7: for every pathname, [anket_getPollID] returns the last segment
    exactly when the segment before it is "p" and the last segment is not
    empty; in every other case it throws the error "Couldn't determine
    poll ID from this URL."; and two pathnames with the same last two
    segments give the same result, whatever comes before them. *)
Theorem C7_getPollID_last_two_segments (loc : Location) :
  let segments := split "/" (pathname loc) in
  (∀ id, anket_getPollID loc = Return id ↔
         (∃ pre, segments = (pre ++ ["p"; id])%list) ∧ id ≠ "") ∧
  ((∃ id, anket_getPollID loc = Return id) ∨
   anket_getPollID loc
   = Throw (Error "Couldn't determine poll ID from this URL.")) ∧
  (∀ loc' pre pre' a b,
     segments = (pre ++ [a; b])%list →
     split "/" (pathname loc') = (pre' ++ [a; b])%list →
     anket_getPollID loc' = anket_getPollID loc).
Proof.
  intros segments. split_and!.
  - intros id. destruct (last_two segments) as [Hs|[[x Hs]|(pre & a & b & Hs)]].
    + by destruct (split_nonempty "/" (pathname loc)).
    + rewrite (getPollID_one loc x Hs). split; [done|].
      intros [[pre Hpre] _]. rewrite Hpre in Hs.
      apply (f_equal length) in Hs. rewrite length_app in Hs. simpl in Hs. lia.
    + rewrite (getPollID_two loc pre a b Hs). case_bool_decide as Hab.
      * destruct Hab as [-> Hb]. split.
        -- intros [= <-]. split; [by exists pre|done].
        -- intros [[pre' Hpre'] _]. rewrite Hpre' in Hs.
           apply app_inj_2 in Hs as [_ [= ->]]; done.
      * split; [done|]. intros [[pre' Hpre'] Hid]. rewrite Hpre' in Hs.
        apply app_inj_2 in Hs as [_ [= <- <-]]; [|done]. naive_solver.
  - destruct (last_two segments) as [Hs|[[x Hs]|(pre & a & b & Hs)]].
    + by destruct (split_nonempty "/" (pathname loc)).
    + right. by apply (getPollID_one loc x).
    + rewrite (getPollID_two loc pre a b Hs). case_bool_decide; eauto.
  - intros loc' pre pre' a b Hs Hs'.
    by rewrite (getPollID_two loc pre a b Hs), (getPollID_two loc' pre' a b Hs').
Qed.

Lemma C7_getPollID_witness :
  (anket_getPollID example_location = Return "abc" ↔
   (∃ pre, split "/" (pathname example_location) = (pre ++ ["p"; "abc"])%list)
   ∧ "abc" ≠ "") ∧
  anket_getPollID {| pathname := "/x/y/p/abc"; protocol := "http:"; host := "h" |}
  = anket_getPollID example_location.
Proof.
  destruct (C7_getPollID_last_two_segments example_location) as (Hiff & _ & Hpre).
  split; [apply Hiff|].
  apply (Hpre _ [""] [""; "x"; "y"] "p" "abc"); reflexivity.
Defined.

(** ** Paths in the document *)

Lemma with_children_id (e : element) : with_children (children e) e = e.
Proof. by destruct e. Qed.

Lemma get_at_app (e : element) (p q : path) :
  get_at e (p ++ q) = get_at e p ≫= λ c, get_at c q.
Proof.
  revert e. induction p as [|i p IH]; intros e; simpl; [done|].
  destruct (children e !! i) as [[|c]|]; simpl; auto.
Qed.

Lemma get_at_update_same (e : element) p f x :
  get_at e p = Some x → get_at (update_at p f e) p = Some (f x).
Proof.
  revert e. induction p as [|i p IH]; intros e; simpl; [by intros [= ->]|].
  destruct (children e !! i) as [[|c]|] eqn:Hi; try done.
  intros Hc. simpl.
  rewrite list_lookup_insert_eq by eauto using lookup_lt_Some. by apply IH.
Qed.

Lemma get_at_update_other (e : element) p q f :
  prefixb p q = false → prefixb q p = false →
  get_at (update_at p f e) q = get_at e q.
Proof.
  revert e q. induction p as [|i p IH]; intros e [|j q]; simpl; try done.
  destruct (Nat.eqb_spec i j) as [<-|Hij]; simpl.
  - rewrite (Nat.eqb_refl i). simpl. intros Hpq Hqp.
    destruct (children e !! i) as [[|c]|] eqn:Hi; simpl; rewrite ?Hi; try done.
    rewrite list_lookup_insert_eq by eauto using lookup_lt_Some. by apply IH.
  - intros _ _.
    destruct (children e !! i) as [[|c]|] eqn:Hi; simpl; try done.
    by rewrite list_lookup_insert_ne.
Qed.

Lemma update_at_twice (e : element) p f g :
  update_at p g (update_at p f e) = update_at p (g ∘ f) e.
Proof.
  revert e. induction p as [|i p IH]; intros e; simpl; [done|].
  destruct (children e !! i) as [[|c]|] eqn:Hi; simpl; rewrite ?Hi; try done.
  rewrite list_lookup_insert_eq by eauto using lookup_lt_Some.
  by rewrite list_insert_insert_eq, IH.
Qed.

Lemma get_at_update_is_Some (e : element) p q f :
  (p = q ∨ (prefixb p q = false ∧ prefixb q p = false)) →
  is_Some (get_at e q) → is_Some (get_at (update_at p f e) q).
Proof.
  intros [->|[Hpq Hqp]] [x Hx].
  - rewrite (get_at_update_same _ _ _ x); eauto.
  - rewrite get_at_update_other; eauto.
Qed.

(** ** Rendered items *)

Lemma get_total (d : value) name name' (v : value) :
  get d name = Return v → ∃ v', get d name' = Return v'.
Proof. destruct d; simpl; intros; try done; eauto. Qed.

Lemma matches_no_attrs selector (e : element) :
  attrs e = [] → matches selector e = false.
Proof.
  intros He. unfold matches. rewrite He.
  by destruct selector as [|[[] [] [] [] [] [] [] []] ?].
Qed.

Lemma first_child_inert f cs i :
  Forall (λ n, f n = None) cs → first_child f cs i = None.
Proof.
  intros Hcs. revert i. induction Hcs as [|c cs Hc _ IH]; intros i; simpl; [done|].
  by rewrite Hc.
Qed.

(** A rendered text fragment holds text and line breaks only: no
    selector of the script finds anything in it. *)
Lemma text_fragment_inert selector s cur :
  Forall (λ n, match_or_descend selector n = None) (text_fragment cur s).
Proof.
  remember (String.length s) as n eqn:Hn.
  revert s cur Hn. induction n as [n IH] using lt_wf_ind. intros s cur ->.
  assert (Hflush : ∀ cur : string,
    Forall (λ n, match_or_descend selector n = None)
           (if bool_decide (cur = "") then [] else [Text (String.rev cur)])).
  { intros cur'. case_bool_decide; repeat constructor. }
  assert (Hbr : match_or_descend selector (parsed "br" [] []) = None).
  { simpl. by rewrite matches_no_attrs. }
  destruct s as [|c s]; simpl; [apply Hflush|].
  destruct (Ascii.eqb c LF).
  { apply Forall_app; split; [apply Hflush|]. constructor; [done|].
    eapply IH; [|done]. simpl. lia. }
  destruct (Ascii.eqb c CR).
  { apply Forall_app; split; [apply Hflush|]. constructor; [done|].
    destruct s as [|c' s']; [eapply IH; [|done]; simpl; lia|].
    destruct (Ascii.eqb c' LF); eapply IH; try done; simpl; lia. }
  eapply IH; [|done]. simpl. lia.
Qed.

Lemma text_fragment_no_match selector s cur i :
  first_child (match_or_descend selector) (text_fragment cur s) i = None.
Proof. apply first_child_inert, text_fragment_inert. Qed.

Section items.
Context `{!Platform}.

(** [anket_makeItem] reads four properties of [details] and nothing
    else of it. *)
Lemma anket_makeItem_get (details id text score user_vote : value) :
  get details "id" = Return id →
  get details "text" = Return text →
  get details "score" = Return score →
  get details "user_vote" = Return user_vote →
  anket_makeItem details
  = anket_makeItem (VObj [("id", id); ("text", text); ("score", score);
                          ("user_vote", user_vote)]).
Proof.
  intros Hid Htext Hscore Huv. unfold anket_makeItem.
  rewrite Hid, Htext, Hscore, Huv. reflexivity.
Qed.

Lemma loose_eq_num_VNum (m n : Z) :
  loose_eq_num (VNum m) n = bool_decide (m = n).
Proof. reflexivity. Qed.
End items.

Lemma glyph_fragments :
  text_fragment "" "⬆" = [Text "⬆"] ∧ text_fragment "" "⇧" = [Text "⇧"] ∧
  text_fragment "" "⬇" = [Text "⬇"] ∧ text_fragment "" "⇩" = [Text "⇩"].
Proof. repeat split; reflexivity. Qed.

Lemma ToString_VNum n : ToString (VNum n) = pretty n.
Proof. reflexivity. Qed.

Lemma innerText_string_VNum n : innerText_string (VNum n) = pretty n.
Proof. reflexivity. Qed.

Lemma innerText_string_VStr s : innerText_string (VStr s) = s.
Proof. reflexivity. Qed.

Lemma pretty_eq_decimal (v n : Z) (s : string) :
  pretty n = s →
  bool_decide (Some (pretty v) = Some s) = bool_decide (v = n).
Proof.
  intros <-. apply bool_decide_ext. split; [|by intros ->].
  intros [= Hv]. by apply (inj pretty).
Qed.

Lemma pretty_1 : pretty 1 = "1".
Proof. reflexivity. Qed.

Lemma pretty_minus_1 : pretty (-1) = "-1".
Proof. reflexivity. Qed.

Lemma socket_send_open v st ws :
  socket st = Some ws → socket_send v st = (Return tt, with_sent v st).
Proof. intros Hws. unfold socket_send, with_sent. by rewrite Hws. Qed.

Lemma deref_Some what p st root e :
  poll_canvas st = Some root → get_at root p = Some e →
  deref what (Some p) st = (Return e, st).
Proof. intros Hroot He. unfold deref. by rewrite Hroot, He. Qed.

Lemma mutate_Some what p f st root e :
  poll_canvas st = Some root → get_at root p = Some e →
  mutate what (Some p) f st
  = (Return tt, set_poll_canvas (Some (update_at p f root)) st).
Proof.
  intros Hroot He. unfold mutate, bind, modify.
  rewrite (deref_Some what p st root e) by done. by rewrite Hroot.
Qed.

Lemma click_one st root target e l :
  poll_canvas st = Some root → get_at root target = Some e →
  listeners_for "click" (listeners e) = [l] →
  click target st = run (click_listener target l) st.
Proof. intros Hroot He Hl. unfold click. rewrite Hroot. simpl. by rewrite He, Hl. Qed.

Section item_properties.
Context `{!Platform}.

Local Opaque ToString innerText_string text_fragment loose_eq_num pretty.

(** C5: for every item view with an id, a text, an integer score and
    an integer user vote, [anket_makeItem] builds an element that
    carries the id and the user vote as attributes, shows the score
    under the score element and the text under the content element,
    shows the glyph "⬆" on the up button exactly when the user vote is
    1 and "⇧" otherwise, and the glyph "⬇" on the down button exactly
    when the user vote is -1 and "⇩" otherwise. *)
Theorem C5_makeItem_renders_item_view
    (details id : value) (text : string) (score user_vote : Z) :
  get details "id" = Return id →
  get details "text" = Return (VStr text) →
  get details "score" = Return (VNum score) →
  get details "user_vote" = Return (VNum user_vote) →
  ∃ item,
    anket_makeItem details = Return item ∧
    getAttribute item "anket-itemID" = Some (ToString id) ∧
    getAttribute item "anket-itemUserVote" = Some (pretty user_vote) ∧
    shown ".option-score" item = Some (text_fragment "" (pretty score)) ∧
    shown ".option-content" item = Some (text_fragment "" text) ∧
    shown ".option-vote-up" item
    = Some [Text (if bool_decide (user_vote = 1) then "⬆" else "⇧")] ∧
    shown ".option-vote-down" item
    = Some [Text (if bool_decide (user_vote = -1) then "⬇" else "⇩")].
Proof.
  intros Hid Htext Hscore Huv.
  rewrite (anket_makeItem_get _ _ _ _ _ Hid Htext Hscore Huv).
  destruct glyph_fragments as (Hup1 & Hup0 & Hdown1 & Hdown0).
  eexists. split; [lazy; reflexivity|].
  unfold shown, querySelector. rewrite !loose_eq_num_VNum.
  split_and!; simpl; rewrite ?text_fragment_no_match; simpl;
    rewrite ?innerText_string_VStr, ?innerText_string_VNum, ?ToString_VNum;
    try reflexivity.
  - by case_bool_decide; rewrite ?Hup1, ?Hup0.
  - by case_bool_decide; rewrite ?Hdown1, ?Hdown0.
Qed.

(** The two closure bodies send a vote of 0 or 1, and of 0 or -1,
    whatever the item holds. *)
Lemma buttonUp_click_votes (item : element) (id : value) :
  ∃ vote, buttonUp_click item id = anket_sendVoteItemMsg id (VNum vote) ∧
          (vote = 0 ∨ vote = 1).
Proof. unfold buttonUp_click. case_bool_decide; eauto. Qed.

Lemma buttonDown_click_votes (item : element) (id : value) :
  ∃ vote, buttonDown_click item id = anket_sendVoteItemMsg id (VNum vote) ∧
          (vote = 0 ∨ vote = -1).
Proof. unfold buttonDown_click. case_bool_decide; eauto. Qed.

(** C2: for an item rendered with user vote [v] and shown anywhere in
    the page, a click on its up button sends one VoteItem message for
    the item, with vote 0 when [v] is 1 and vote 1 otherwise; a click on
    its down button sends one with vote 0 when [v] is -1 and vote -1
    otherwise.  So the same click on an item whose vote is already
    given takes the vote back, and whatever an item holds, the vote a
    click sends is -1, 0 or 1. *)
Theorem C2_vote_buttons
    (st : Page) (root : element) (ws : WebSocket) (at_item : path)
    (details id : value) (v : Z) (item : element) :
  poll_canvas st = Some root →
  socket st = Some ws →
  get details "id" = Return id →
  get details "user_vote" = Return (VNum v) →
  anket_makeItem details = Return item →
  get_at root at_item = Some item →
  (∃ up down,
     querySelector ".option-vote-up" item = Some up ∧
     querySelector ".option-vote-down" item = Some down ∧
     click (at_item ++ up) st
     = with_sent (VoteItem id (if bool_decide (v = 1) then 0 else 1)) st ∧
     click (at_item ++ down) st
     = with_sent (VoteItem id (if bool_decide (v = -1) then 0 else -1)) st) ∧
  (∀ (any : element) (id' : value),
     (∃ vote, buttonUp_click any id' = anket_sendVoteItemMsg id' (VNum vote)
              ∧ vote ∈ [-1; 0; 1]) ∧
     (∃ vote, buttonDown_click any id' = anket_sendVoteItemMsg id' (VNum vote)
              ∧ vote ∈ [-1; 0; 1])).
Proof.
  intros Hroot Hws Hid Huv Hmake Hitem. split.
  - destruct (get_total _ _ "text" _ Hid) as [text Htext].
    destruct (get_total _ _ "score" _ Hid) as [score Hscore].
    rewrite (anket_makeItem_get _ _ _ _ _ Hid Htext Hscore Huv) in Hmake.
    lazy in Hmake. injection Hmake as Hmake.
    assert (Hattr : getAttribute item "anket-itemUserVote" = Some (pretty v))
      by (by rewrite <- Hmake).
    assert (Hup : querySelector ".option-vote-up" item = Some [1; 1; 1]%nat).
    { rewrite <- Hmake. unfold querySelector. simpl.
      by rewrite ?text_fragment_no_match. }
    assert (Hdown : querySelector ".option-vote-down" item
                    = Some [1; 1; 5]%nat).
    { rewrite <- Hmake. unfold querySelector. simpl.
      by rewrite ?text_fragment_no_match. }
    assert (HbuttonUp : ∃ e, get_at item [1; 1; 1]%nat = Some e ∧
              listeners_for "click" (listeners e) = [buttonUp_onclick 3 id])
      by (rewrite <- Hmake; eexists; split; reflexivity).
    assert (HbuttonDown : ∃ e, get_at item [1; 1; 5]%nat = Some e ∧
              listeners_for "click" (listeners e) = [buttonDown_onclick 3 id])
      by (rewrite <- Hmake; eexists; split; reflexivity).
    clear Hmake.
    assert (Htake : ∀ button : path, length button = 3%nat →
              take (length (at_item ++ button) - 3) (at_item ++ button)
              = at_item).
    { intros button Hlen. rewrite length_app, Hlen.
      replace (length at_item + 3 - 3)%nat with (length at_item) by lia.
      apply take_app_length. }
    exists [1; 1; 1]%nat, [1; 1; 5]%nat. split_and!; [done..| |].
    + destruct HbuttonUp as (e & He & Hl).
      rewrite (click_one st root _ e _ Hroot) by
        (done || by rewrite get_at_app, Hitem).
      unfold run, click_listener, bind. rewrite Htake by done.
      rewrite (deref_Some _ _ _ _ _ Hroot Hitem).
      unfold buttonUp_click, anket_sendVoteItemMsg.
      rewrite Hattr, (pretty_eq_decimal v 1 _ pretty_1).
      rewrite (socket_send_open _ _ _ Hws). by case_bool_decide.
    + destruct HbuttonDown as (e & He & Hl).
      rewrite (click_one st root _ e _ Hroot) by
        (done || by rewrite get_at_app, Hitem).
      unfold run, click_listener, bind. rewrite Htake by done.
      rewrite (deref_Some _ _ _ _ _ Hroot Hitem).
      unfold buttonDown_click, anket_sendVoteItemMsg.
      rewrite Hattr, (pretty_eq_decimal v (-1) _ pretty_minus_1).
      rewrite (socket_send_open _ _ _ Hws). by case_bool_decide.
  - intros any id'. split.
    + destruct (buttonUp_click_votes any id') as (vote & -> & [->| ->]);
        eexists; (split; [done|]); repeat constructor.
    + destruct (buttonDown_click_votes any id') as (vote & -> & [->| ->]);
        eexists; (split; [done|]); repeat constructor.
Qed.
End item_properties.

Lemma C5_makeItem_witness :
  ∃ item,
    @anket_makeItem decimal_platform (example_item 7 "Pizza" 1 1) = Return item ∧
    getAttribute item "anket-itemID" = Some (ToString (VNum 7)) ∧
    getAttribute item "anket-itemUserVote" = Some (pretty 1) ∧
    shown ".option-score" item = Some (text_fragment "" (pretty 1)) ∧
    shown ".option-content" item = Some (text_fragment "" "Pizza") ∧
    shown ".option-vote-up" item
    = Some [Text (if bool_decide (1 = 1) then "⬆" else "⇧")] ∧
    shown ".option-vote-down" item
    = Some [Text (if bool_decide (1 = -1) then "⬇" else "⇩")].
Proof.
  apply (@C5_makeItem_renders_item_view decimal_platform
           (example_item 7 "Pizza" 1 1) (VNum 7) "Pizza" 1 1); reflexivity.
Defined.

(** ** Rendering a list of items *)

Lemma update_at_ext (e : element) p f g :
  (∀ x, f x = g x) → update_at p f e = update_at p g e.
Proof.
  intros Hfg. revert e. induction p as [|i p IH]; intros e; simpl; [done|].
  destruct (children e !! i) as [[|c]|]; try done. by rewrite IH.
Qed.

Lemma set_poll_canvas_twice a b st :
  set_poll_canvas a (set_poll_canvas b st) = set_poll_canvas a st.
Proof. reflexivity. Qed.

Lemma bind_Return {A B} (m : M A) (k : A → M B) st a st' :
  m st = (Return a, st') → bind m k st = k a st'.
Proof. intros Hm. unfold bind. by rewrite Hm. Qed.

Lemma bind_Throw {A B} (m : M A) (k : A → M B) st e st' :
  m st = (Throw e, st') → bind m k st = (Throw e, st').
Proof. intros Hm. unfold bind. by rewrite Hm. Qed.

Section rendering.
Context `{!Platform}.

Lemma forEach_appendChild st root p e items els shown_so_far :
  poll_canvas st = Some (update_at p (with_children shown_so_far) root) →
  get_at root p = Some e →
  rendered items els →
  forEach (λ details,
             let! item := lift (anket_makeItem details) in
             mutate "target.appendChild" (Some p)
               (appendChild (Element item)))
          items st
  = (Return tt,
     set_poll_canvas
       (Some (update_at p (with_children (shown_so_far ++ (Element <$> els)))
                        root)) st).
Proof.
  intros Hst He Hitems. revert st shown_so_far Hst.
  induction Hitems as [|d el items els Hd _ IH]; intros st shown_so_far Hst.
  - simpl. rewrite app_nil_r. unfold ret. f_equal.
    rewrite <- Hst. by destruct st.
  - simpl. unfold bind at 1. unfold bind at 1. unfold lift at 1. rewrite Hd.
    erewrite mutate_Some; [|done|by apply get_at_update_same].
    rewrite update_at_twice.
    erewrite (update_at_ext _ _ _ (with_children (shown_so_far ++ [Element el])))
      by done.
    erewrite IH; [|done]. rewrite set_poll_canvas_twice.
    by rewrite <- app_assoc.
Qed.

(** [anket_renderItems] on an array whose entries all render: the
    children of the target become the rendered elements. *)
Lemma anket_renderItems_array st root p e items els :
  poll_canvas st = Some root →
  get_at root p = Some e →
  rendered items els →
  anket_renderItems (VArr items) (Some p) st
  = (Return tt,
     set_poll_canvas
       (Some (update_at p (with_children (Element <$> els)) root)) st).
Proof.
  intros Hroot He Hitems. unfold anket_renderItems.
  erewrite bind_Return; [|by eapply mutate_Some].
  erewrite forEach_appendChild; [|done..].
  by rewrite set_poll_canvas_twice.
Qed.
End rendering.

(** ** A poll state update *)

Lemma separate_four (a b c d : path) :
  separate [a; b; c; d] = true →
  (prefixb a b = false ∧ prefixb b a = false) ∧
  (prefixb a c = false ∧ prefixb c a = false) ∧
  (prefixb a d = false ∧ prefixb d a = false) ∧
  (prefixb b c = false ∧ prefixb c b = false) ∧
  (prefixb b d = false ∧ prefixb d b = false) ∧
  (prefixb c d = false ∧ prefixb d c = false).
Proof.
  simpl. rewrite !andb_true_r, !andb_true_iff, !negb_true_iff. tauto.
Qed.

Section poll_state_update.
Context `{!Platform}.

Lemma case_PollStateUpdate_ready
    (st : Page) (root : element) (at_title at_top at_latest at_user : path)
    (data content poll_title : value) (tops latests users : list value)
    (top_els latest_els user_els : list element) :
  views_ready st root at_title at_top at_latest at_user →
  get data "content" = Return content →
  get content "poll_title" = Return poll_title →
  get content "top_items" = Return (VArr tops) →
  get content "latest_items" = Return (VArr latests) →
  get content "user_items" = Return (VArr users) →
  rendered tops top_els →
  rendered latests latest_els →
  rendered users user_els →
  case_PollStateUpdate data st
  = (Return tt,
     set_poll_canvas
       (Some (update_at at_user (with_children (Element <$> user_els))
                (update_at at_latest (with_children (Element <$> latest_els))
                   (update_at at_top (with_children (Element <$> top_els))
                      (update_at at_title (set_innerText poll_title) root)))))
       st).
Proof.
  intros (Hroot & Htitle & Htop & Hlatest & Huser & [et Het] & [e1 He1]
          & [e2 He2] & [e3 He3] & Hsep)
         Hcontent Hpoll_title Htops Hlatests Husers Hr1 Hr2 Hr3.
  apply separate_four in Hsep
    as ((?&?) & (?&?) & (?&?) & (?&?) & (?&?) & (?&?)).
  unfold case_PollStateUpdate.
  erewrite bind_Return; [|unfold lift; by rewrite Hcontent].
  erewrite bind_Return; [|unfold lift; by rewrite Hpoll_title].
  erewrite bind_Return; [|reflexivity]. rewrite Htitle.
  erewrite bind_Return; [|by eapply mutate_Some].
  erewrite bind_Return; [|unfold lift; by rewrite Hcontent].
  erewrite bind_Return; [|unfold lift; by rewrite Htops].
  erewrite bind_Return; [|reflexivity]. simpl canvas. rewrite Htop.
  erewrite bind_Return; last first.
  { eapply anket_renderItems_array; [reflexivity| |done].
    by rewrite get_at_update_other. }
  rewrite set_poll_canvas_twice.
  erewrite bind_Return; [|unfold lift; by rewrite Hcontent].
  erewrite bind_Return; [|unfold lift; by rewrite Hlatests].
  erewrite bind_Return; [|reflexivity]. simpl canvas. rewrite Hlatest.
  erewrite bind_Return; last first.
  { eapply anket_renderItems_array; [reflexivity| |done].
    by rewrite !get_at_update_other. }
  rewrite set_poll_canvas_twice.
  erewrite bind_Return; [|unfold lift; by rewrite Hcontent].
  erewrite bind_Return; [|unfold lift; by rewrite Husers].
  erewrite bind_Return; [|reflexivity]. simpl canvas. rewrite Huser.
  erewrite anket_renderItems_array; [|reflexivity| |done]; last first.
  { by rewrite !get_at_update_other. }
  by rewrite set_poll_canvas_twice.
Qed.
End poll_state_update.

Section poll_state_update_claims.
Context `{!Platform}.

Local Opaque ToString innerText_string text_fragment loose_eq_num pretty.

(** Every object renders: [anket_makeItem] throws on [null] and
    [undefined] only. *)
Lemma anket_makeItem_object props :
  ∃ item, anket_makeItem (VObj props) = Return item.
Proof.
  erewrite (anket_makeItem_get (VObj props)) by reflexivity.
  eexists. lazy. reflexivity.
Qed.

Lemma rendered_objects items :
  Forall (λ details, ∃ props, details = VObj props) items →
  ∃ els, rendered items els.
Proof.
  induction 1 as [|d items [props ->] _ [els IH]]; [by exists []; constructor|].
  destruct (anket_makeItem_object props) as [el Hel].
  exists (el :: els). by constructor.
Qed.

(** A poll state update on a page whose four view references are in
    place: the title and the three lists are replaced. *)
Lemma poll_state_update_replaces_view
    (st : Page) (root : element) (at_title at_top at_latest at_user : path)
    (data content poll_title : value) (tops latests users : list value) :
  views_ready st root at_title at_top at_latest at_user →
  get data "type" = Return (VStr "PollStateUpdate") →
  get data "content" = Return content →
  get content "poll_title" = Return poll_title →
  get content "top_items" = Return (VArr tops) →
  get content "latest_items" = Return (VArr latests) →
  get content "user_items" = Return (VArr users) →
  Forall (λ details, ∃ props, details = VObj props) (tops ++ latests ++ users) →
  ∃ st' top_els latest_els user_els,
    Frontend.message_listener (Some data) st = (Return tt, st') ∧
    rendered tops top_els ∧
    rendered latests latest_els ∧
    rendered users user_els ∧
    canvas st' = canvas st ∧
    content_of (title (canvas st')) st'
    = Some (text_fragment "" (innerText_string poll_title)) ∧
    content_of (top_items (canvas st')) st' = Some (Element <$> top_els) ∧
    content_of (latest_items (canvas st')) st' = Some (Element <$> latest_els) ∧
    content_of (user_items (canvas st')) st' = Some (Element <$> user_els).
Proof.
  intros Hready Htype Hcontent Hpoll_title Htops Hlatests Husers Hobjects.
  apply Forall_app in Hobjects as [Ho1 Hobjects].
  apply Forall_app in Hobjects as [Ho2 Ho3].
  destruct (rendered_objects _ Ho1) as [top_els Hr1].
  destruct (rendered_objects _ Ho2) as [latest_els Hr2].
  destruct (rendered_objects _ Ho3) as [user_els Hr3].
  eexists _, top_els, latest_els, user_els. split.
  { unfold Frontend.message_listener.
    erewrite bind_Return; [|reflexivity].
    erewrite bind_Return; [|unfold lift; by rewrite Htype].
    simpl. by eapply case_PollStateUpdate_ready. }
  destruct Hready as (Hroot & Htitle & Htop & Hlatest & Huser & [et Het]
                      & [e1 He1] & [e2 He2] & [e3 He3] & Hsep).
  apply separate_four in Hsep
    as ((?&?) & (?&?) & (?&?) & (?&?) & (?&?) & (?&?)).
  split_and!; try done.
  - simpl canvas. rewrite Htitle. unfold content_of. simpl.
    rewrite !get_at_update_other by done.
    by rewrite (get_at_update_same _ _ _ et).
  - simpl canvas. rewrite Htop. unfold content_of. simpl.
    rewrite !get_at_update_other by done.
    erewrite get_at_update_same; [done|]. by rewrite get_at_update_other.
  - simpl canvas. rewrite Hlatest. unfold content_of. simpl.
    rewrite !get_at_update_other by done.
    erewrite get_at_update_same; [done|]. by rewrite !get_at_update_other.
  - simpl canvas. rewrite Huser. unfold content_of. simpl.
    erewrite get_at_update_same; [done|]. by rewrite !get_at_update_other.
Qed.
End poll_state_update_claims.

Lemma C2_vote_buttons_witness :
  (∃ up down,
     querySelector ".option-vote-up"
       (default empty_poll_canvas (get_at updated_root [3; 1; 3; 0]%nat))
     = Some up ∧
     querySelector ".option-vote-down"
       (default empty_poll_canvas (get_at updated_root [3; 1; 3; 0]%nat))
     = Some down ∧
     click ([3; 1; 3; 0]%nat ++ up) updated_page
     = with_sent (VoteItem (VNum 7) (if bool_decide (1 = 1) then 0 else 1))
         updated_page ∧
     click ([3; 1; 3; 0]%nat ++ down) updated_page
     = with_sent (VoteItem (VNum 7) (if bool_decide (1 = -1) then 0 else -1))
         updated_page) ∧
  (∀ (any : element) (id' : value),
     (∃ vote, buttonUp_click any id' = anket_sendVoteItemMsg id' (VNum vote)
              ∧ vote ∈ [-1; 0; 1]) ∧
     (∃ vote, buttonDown_click any id' = anket_sendVoteItemMsg id' (VNum vote)
              ∧ vote ∈ [-1; 0; 1])).
Proof.
  eapply (@C2_vote_buttons decimal_platform updated_page updated_root _
            [3; 1; 3; 0]%nat (example_item 7 "Pizza" 1 1) (VNum 7) 1);
    reflexivity.
Defined.

(** ** The message listener *)

Lemma strict_eq_string_false (x : value) (s : string) :
  x ≠ VStr s → strict_eq_string x s = false.
Proof.
  destruct x; simpl; try done. intros Hs.
  destruct (String.eqb_spec s0 s); congruence.
Qed.

Section message_listener.
Context `{!Platform}.


(** Under server/src/templates/poll.js the body of the PollStateUpdate
    case runs after the alert, on a content that is a string: the title
    becomes "undefined", the top list is emptied, and [forEach] of
    [undefined] throws. *)
Lemma Server_ActionResponse_falls_through
    (st : Page) (root : element) (at_title at_top at_latest at_user : path)
    (data : value) (notice : string) :
  views_ready st root at_title at_top at_latest at_user →
  get data "type" = Return (VStr "ActionResponse") →
  get data "content" = Return (VStr notice) →
  Server.message_listener (Some data) st
  = (Throw (TypeError "Cannot read properties of undefined (reading 'forEach')"),
     set_poll_canvas
       (Some (update_at at_top (set_innerHTML [])
                (update_at at_title (set_innerText VUndefined) root)))
       (with_alert notice st)).
Proof.
  intros (Hroot & Htitle & Htop & _ & _ & [et Het] & [e1 He1] & _ & _ & Hsep)
         Htype Hcontent.
  apply separate_four in Hsep as ((?&?) & _).
  unfold Server.message_listener.
  erewrite bind_Return; [|reflexivity].
  erewrite bind_Return; [|unfold lift; by rewrite Htype].
  simpl. unfold case_ActionResponse.
  erewrite bind_Return; last first.
  { erewrite bind_Return; [|unfold lift; by rewrite Hcontent]. reflexivity. }
  unfold case_PollStateUpdate.
  erewrite bind_Return; [|unfold lift; by rewrite Hcontent].
  erewrite bind_Return; [|reflexivity].
  erewrite bind_Return; [|reflexivity]. simpl canvas. rewrite Htitle.
  erewrite bind_Return; [|by eapply mutate_Some].
  erewrite bind_Return; [|unfold lift; by rewrite Hcontent].
  erewrite bind_Return; [|reflexivity].
  erewrite bind_Return; [|reflexivity]. simpl canvas. rewrite Htop.
  erewrite bind_Throw; [reflexivity|].
  unfold anket_renderItems.
  erewrite bind_Return; last first.
  { eapply mutate_Some; [reflexivity|]. by rewrite get_at_update_other. }
  reflexivity.
Qed.

(** C1: on the page of the example, after a poll state update, the
    listener of server/src/templates/poll.js receives an ActionResponse:
    it shows the alert and then runs the PollStateUpdate case, so the
    title that read "Lunch" reads "undefined", the top list that held
    two items is empty, and a TypeError leaves the listener; the
    listener of src/templates/poll.js only shows the alert. *)
Theorem C1_server_ActionResponse_changes_view :
  let before := server_updated_page in
  let after :=
    Server.socket_dispatch (Message (Some example_ActionResponse)) before in
  alerts after = alerts before ++ ["Text is empty"] ∧
  content_of (title (canvas before)) before = Some [Text "Lunch"] ∧
  content_of (title (canvas after)) after = Some [Text "undefined"] ∧
  length <$> content_of (top_items (canvas before)) before = Some 2%nat ∧
  content_of (top_items (canvas after)) after = Some [] ∧
  uncaught after
  = [TypeError "Cannot read properties of undefined (reading 'forEach')"] ∧
  Frontend.socket_dispatch (Message (Some example_ActionResponse)) updated_page
  = with_alert "Text is empty" updated_page.
Proof. repeat split; vm_compute; reflexivity. Qed.

(** C6: for every received message whose type is neither
    "ActionResponse" nor "PollStateUpdate", the listener of either file
    leaves the page as it is: no alert, the same view, nothing sent, the
    same socket; and when the message has a type at all (it is not
    [null]) the listener returns, and the dispatch of the message event
    changes nothing. *)
Theorem C6_other_message_types_are_ignored (st : Page) (data : value) :
  get data "type" ≠ Return (VStr "ActionResponse") →
  get data "type" ≠ Return (VStr "PollStateUpdate") →
  (Frontend.message_listener (Some data) st).2 = st ∧
  (Server.message_listener (Some data) st).2 = st ∧
  (∀ type, get data "type" = Return type →
     Frontend.message_listener (Some data) st = (Return tt, st) ∧
     Server.message_listener (Some data) st = (Return tt, st) ∧
     Frontend.socket_dispatch (Message (Some data)) st = st ∧
     Server.socket_dispatch (Message (Some data)) st = st).
Proof.
  intros Hnot1 Hnot2.
  assert (Hreturn : ∀ type, get data "type" = Return type →
            Frontend.message_listener (Some data) st = (Return tt, st) ∧
            Server.message_listener (Some data) st = (Return tt, st)).
  { intros type Htype. rewrite Htype in Hnot1, Hnot2.
    unfold Frontend.message_listener, Server.message_listener.
    split.
    - erewrite bind_Return; [|reflexivity].
      erewrite bind_Return; [|unfold lift; by rewrite Htype].
      rewrite !strict_eq_string_false by congruence. reflexivity.
    - erewrite bind_Return; [|reflexivity].
      erewrite bind_Return; [|unfold lift; by rewrite Htype].
      rewrite !strict_eq_string_false by congruence. reflexivity. }
  destruct (get data "type") as [type|e] eqn:Htype.
  - destruct (Hreturn type eq_refl) as [HF HS]. rewrite HF, HS.
    split_and!; try done. intros type' [= <-]. split_and!; try done.
    + unfold Frontend.socket_dispatch. destruct (socket st) as [ws|]; [|done].
      generalize (listeners_for (event_type (Message (Some data)))
                    (socket_listeners ws)).
      intros ls. induction ls as [|l ls IH]; simpl; [done|].
      replace (run (Frontend.socket_listener_body (Message (Some data)) l) st)
        with st; [done|].
      destruct l; simpl; try done. unfold run. by rewrite HF.
    + unfold Server.socket_dispatch. destruct (socket st) as [ws|]; [|done].
      generalize (listeners_for (event_type (Message (Some data)))
                    (socket_listeners ws)).
      intros ls. induction ls as [|l ls IH]; simpl; [done|].
      replace (run (Server.socket_listener_body (Message (Some data)) l) st)
        with st; [done|].
      destruct l; simpl; try done. unfold run. by rewrite HS.
  - split_and!; try done.
    + unfold Frontend.message_listener.
      erewrite bind_Return; [|reflexivity].
      erewrite bind_Throw; [done|]. unfold lift. by rewrite Htype.
    + unfold Server.message_listener.
      erewrite bind_Return; [|reflexivity].
      erewrite bind_Throw; [done|]. unfold lift. by rewrite Htype.
Qed.
End message_listener.

Lemma C6_other_message_types_witness :
  let data := VObj [("type", VStr "Ping"); ("content", VNull)] in
  (@Frontend.message_listener decimal_platform (Some data) updated_page).2
  = updated_page ∧
  (@Server.message_listener decimal_platform (Some data) updated_page).2
  = updated_page ∧
  (∀ type, get data "type" = Return type →
     @Frontend.message_listener decimal_platform (Some data) updated_page
     = (Return tt, updated_page) ∧
     @Server.message_listener decimal_platform (Some data) updated_page
     = (Return tt, updated_page) ∧
     @Frontend.socket_dispatch decimal_platform (Message (Some data)) updated_page
     = updated_page ∧
     @Server.socket_dispatch decimal_platform (Message (Some data)) updated_page
     = updated_page).
Proof.
  apply (@C6_other_message_types_are_ignored decimal_platform updated_page
           (VObj [("type", VStr "Ping"); ("content", VNull)])); simpl; congruence.
Defined.

(** ** The end of the connection *)

Section connection_end.
Context `{!Platform}.

(** C9: once [anket_main] has added its listeners, every close event
    and every error event of the socket ends, in both files, in one
    alert with a fixed text ("websocket connection closed" for close,
    "websocket connection lost" for error) that does not depend on the
    event, so a clean and an unclean close look the same; nothing else
    of the page changes, in particular [anket.socket] stays the socket
    it was: no new connection is made. *)
Theorem C9_connection_end_alerts
    (st : Page) (ws : WebSocket) (event : Event) :
  socket st = Some ws →
  socket_listeners ws = main_listeners →
  Frontend.socket_dispatch (Close event) st
  = with_alert "websocket connection closed" st ∧
  Frontend.socket_dispatch (ConnectionError event) st
  = with_alert "websocket connection lost" st ∧
  Server.socket_dispatch (Close event) st
  = with_alert "websocket connection closed" st ∧
  Server.socket_dispatch (ConnectionError event) st
  = with_alert "websocket connection lost" st ∧
  (∀ event',
     Frontend.socket_dispatch (Close event') st
     = Frontend.socket_dispatch (Close event) st ∧
     Server.socket_dispatch (Close event') st
     = Server.socket_dispatch (Close event) st) ∧
  socket (Frontend.socket_dispatch (Close event) st) = Some ws ∧
  socket (Frontend.socket_dispatch (ConnectionError event) st) = Some ws ∧
  socket (Server.socket_dispatch (Close event) st) = Some ws ∧
  socket (Server.socket_dispatch (ConnectionError event) st) = Some ws.
Proof.
  intros Hws Hls.
  unfold Frontend.socket_dispatch, Server.socket_dispatch.
  rewrite Hws, Hls. by split_and!.
Qed.
End connection_end.

Lemma C9_connection_end_witness :
  let event := {| wasClean := false; code := 1006; reason := "" |} in
  let st := updated_page in
  @Frontend.socket_dispatch decimal_platform (Close event) st
  = with_alert "websocket connection closed" st ∧
  @Frontend.socket_dispatch decimal_platform (ConnectionError event) st
  = with_alert "websocket connection lost" st ∧
  @Server.socket_dispatch decimal_platform (Close event) st
  = with_alert "websocket connection closed" st ∧
  @Server.socket_dispatch decimal_platform (ConnectionError event) st
  = with_alert "websocket connection lost" st ∧
  (∀ event',
     @Frontend.socket_dispatch decimal_platform (Close event') st
     = @Frontend.socket_dispatch decimal_platform (Close event) st ∧
     @Server.socket_dispatch decimal_platform (Close event') st
     = @Server.socket_dispatch decimal_platform (Close event) st) ∧
  socket (@Frontend.socket_dispatch decimal_platform (Close event) st)
  = socket st ∧
  socket (@Frontend.socket_dispatch decimal_platform (ConnectionError event) st)
  = socket st ∧
  socket (@Server.socket_dispatch decimal_platform (Close event) st)
  = socket st ∧
  socket (@Server.socket_dispatch decimal_platform (ConnectionError event) st)
  = socket st.
Proof.
  eapply (@C9_connection_end_alerts decimal_platform updated_page);
    reflexivity.
Defined.

(** ** The item form *)

Lemma submit_listener_ready (st : Page) (at_form at_input : path) (text : string) :
  form_ready st at_form at_input text →
  ∃ root,
    poll_canvas st = Some root ∧
    Frontend.submit_listener st
    = (Return tt,
       set_poll_canvas (Some (update_at at_input (with_value "") root))
         ((if bool_decide (text = "") then id else with_sent (AddItem text))
            (set_defaultPrevented true st))).
Proof.
  intros (root & f & input & q & ws & Hroot & Hform & Hf & Hl & Hq & -> & Hinput
          & <- & Hws).
  assert (Hin : get_at root (at_form ++ q) = Some input)
    by (by rewrite get_at_app, Hf).
  exists root. split; [done|]. unfold Frontend.submit_listener.
  erewrite bind_Return; [|reflexivity].
  erewrite bind_Return; [|reflexivity]. simpl canvas. rewrite Hform.
  erewrite bind_Return; last first.
  { unfold query. erewrite bind_Return; [|by eapply deref_Some].
    rewrite Hq. reflexivity. }
  erewrite bind_Return; [|by eapply deref_Some].
  destruct (value_of input) as [|c text] eqn:Htext; simpl.
  - erewrite bind_Return; [|reflexivity].
    by erewrite mutate_Some.
  - erewrite bind_Return; [|eapply socket_send_open; exact Hws].
    by erewrite mutate_Some.
Qed.

Lemma form_ready_frame (st st' : Page) at_form at_input text :
  poll_canvas st' = poll_canvas st → canvas st' = canvas st →
  is_Some (socket st') →
  form_ready st at_form at_input text → form_ready st' at_form at_input text.
Proof.
  intros Hp Hc [ws' Hws'] (root & f & input & q & ws & Hform).
  exists root, f, input, q, ws'. rewrite Hp, Hc.
  destruct Hform as (? & ? & ? & ? & ? & ? & ? & ? & ?). by split_and!.
Qed.

Lemma submit_ready (st : Page) (at_form at_input : path) (text : string) :
  form_ready st at_form at_input text →
  ∃ root,
    poll_canvas st = Some root ∧
    Frontend.submit at_form st
    = set_poll_canvas (Some (update_at at_input (with_value "") root))
        ((if bool_decide (text = "") then id else with_sent (AddItem text))
           (set_defaultPrevented true st)) ∧
    value_of <$> get_at (update_at at_input (with_value "") root) at_input
    = Some "".
Proof.
  intros Hready.
  assert (Hready0 : form_ready (set_defaultPrevented false st)
                      at_form at_input text).
  { eapply form_ready_frame; [done..| |done].
    destruct Hready as (? & ? & ? & ? & ws & ? & ? & ? & ? & ? & ? & ? & ? & ?).
    by exists ws. }
  destruct (submit_listener_ready _ _ _ _ Hready0) as (root & Hroot & Hsubmit).
  destruct Hready as (root' & f & input & q & ws & Hroot' & Hform & Hf & Hl & Hq
                      & -> & Hinput & <- & Hws).
  simpl in Hroot. assert (root' = root) as -> by congruence.
  exists root. split_and!; [done| |].
  - unfold Frontend.submit. cbn [poll_canvas set_defaultPrevented].
    rewrite Hroot. simpl. rewrite Hf, Hl. simpl. unfold run.
    rewrite Hsubmit. by case_bool_decide.
  - erewrite get_at_update_same; [done|]. by rewrite get_at_app, Hf.
Qed.

(** ** The address of the socket *)

Section socket_address.
Context `{!Platform}.

Lemma Frontend_load_page (loc : Location) (root : element) (pollID : string) :
  anket_getPollID loc = Return pollID →
  Frontend.load (loaded loc (Some root))
  = {| location := loc;
       poll_canvas := Some (with_children connecting_notice root);
       canvas := set_self (Some []) empty_canvas;
       socket := Some {| url := anket_getWSUrl loc pollID;
                         socket_listeners := main_listeners; sent := [] |};
       alerts := []; defaultPrevented := false; uncaught := [] |}.
Proof.
  intros Hid. unfold Frontend.load, run, Frontend.anket_main.
  erewrite bind_Return; [|reflexivity].
  erewrite bind_Return; [|reflexivity].
  erewrite bind_Return; [|reflexivity].
  erewrite bind_Return; [|unfold lift; simpl; by rewrite Hid].
  reflexivity.
Qed.

Lemma Server_load_socket (loc : Location) (root : element) (pollID : string) :
  anket_getPollID loc = Return pollID →
  socket (Server.load (loaded loc (Some root)))
  = Some {| url := "/p/" +:+ pollID +:+ "/ws";
            socket_listeners := main_listeners; sent := [] |}.
Proof.
  intros Hid. unfold Server.load, run, Server.anket_main.
  erewrite bind_Return; [|reflexivity].
  erewrite bind_Return; [|reflexivity].
  erewrite bind_Return; [|reflexivity].
  erewrite bind_Return; [|unfold lift; simpl; by rewrite Hid].
  reflexivity.
Qed.

(** C8: for every poll id, the URL [anket_getWSUrl] gives is the
    scheme, "://", the host of the page and the path /p/{pollID}/ws,
    where the scheme is "wss" exactly when the protocol of the page is
    "https:" and "ws" otherwise; on a page whose pathname gives the poll
    id, [anket_main] of src/templates/poll.js constructs its socket with
    that URL, and [anket_main] of server/src/templates/poll.js with the
    same path /p/{pollID}/ws, relative to the page. *)
Theorem C8_socket_url (loc : Location) (pollID : string) :
  (protocol loc = "https:" →
   anket_getWSUrl loc pollID = "wss://" +:+ host loc +:+ "/p/" +:+ pollID +:+ "/ws") ∧
  (protocol loc ≠ "https:" →
   anket_getWSUrl loc pollID = "ws://" +:+ host loc +:+ "/p/" +:+ pollID +:+ "/ws") ∧
  (∀ root, anket_getPollID loc = Return pollID →
     url <$> socket (Frontend.load (loaded loc (Some root)))
     = Some (anket_getWSUrl loc pollID) ∧
     url <$> socket (Server.load (loaded loc (Some root)))
     = Some ("/p/" +:+ pollID +:+ "/ws")).
Proof.
  split_and!.
  - intros Hp. unfold anket_getWSUrl. by rewrite Hp.
  - intros Hp. unfold anket_getWSUrl.
    by destruct (String.eqb_spec (protocol loc) "https:").
  - intros root Hid.
    by rewrite (Frontend_load_page _ _ _ Hid), (Server_load_socket _ _ _ Hid).
Qed.
End socket_address.

Lemma C8_socket_url_witness :
  anket_getWSUrl example_location "abc" = "wss://anket.example/p/abc/ws" ∧
  url <$> socket (Frontend.load (loaded example_location (Some empty_poll_canvas)))
  = Some "wss://anket.example/p/abc/ws" ∧
  url <$> socket (Server.load (loaded example_location (Some empty_poll_canvas)))
  = Some "/p/abc/ws".
Proof.
  destruct (C8_socket_url example_location "abc") as (Hs & _ & Hmain).
  split; [by apply Hs|]. by apply (Hmain empty_poll_canvas).
Defined.

(** ** The states the page goes through *)

Lemma first_child_insert f cs i (c c' : node) k :
  cs !! i = Some c → f c' = f c →
  first_child f (<[i := c']> cs) k = first_child f cs k.
Proof.
  intros Hi Hf. revert i k Hi.
  induction cs as [|x cs IH]; intros [|i] k Hi; simpl in *; try done.
  - injection Hi as ->. by rewrite Hf.
  - by rewrite (IH i).
Qed.

(** Typing into a field changes no query result. *)
Lemma match_or_descend_with_value selector p v (e : element) :
  match_or_descend selector (Element (update_at p (with_value v) e))
  = match_or_descend selector (Element e).
Proof.
  revert e. induction p as [|i p IH]; intros e; [done|]. simpl update_at.
  destruct (children e !! i) as [[|c]|] eqn:Hi; try done.
  simpl. erewrite first_child_insert; [done..|]. apply IH.
Qed.

Lemma querySelector_with_value selector p v (e : element) :
  querySelector selector (update_at p (with_value v) e)
  = querySelector selector e.
Proof.
  destruct p as [|i p]; [done|]. unfold querySelector. simpl update_at.
  destruct (children e !! i) as [[|c]|] eqn:Hi; try done.
  simpl. erewrite first_child_insert; [done..|].
  apply match_or_descend_with_value.
Qed.

Lemma listeners_with_value p v (e : element) :
  listeners (update_at p (with_value v) e) = listeners e.
Proof.
  destruct p as [|i p]; [done|]. simpl.
  by destruct (children e !! i) as [[|c]|].
Qed.

Lemma get_at_update_prefix (e : element) p q f x :
  get_at e p = Some x →
  get_at (update_at (p ++ q) f e) p = Some (update_at q f x).
Proof.
  revert e. induction p as [|i p IH]; intros e; simpl; [by intros [= ->]|].
  destruct (children e !! i) as [[|c]|] eqn:Hi; try done.
  intros Hc. simpl.
  rewrite list_lookup_insert_eq by eauto using lookup_lt_Some. by apply IH.
Qed.

Lemma page_ready_frame (st st' : Page) :
  poll_canvas st' = poll_canvas st →
  canvas st' = canvas st →
  socket_listeners <$> socket st' = socket_listeners <$> socket st →
  page_ready st → page_ready st'.
Proof.
  intros Hp Hc Hs (root & text & ws & Hcanvas & Hviews & Hform & Hws & Hls).
  rewrite Hws in Hs. destruct (socket st') as [ws'|] eqn:Hws'; [|done].
  injection Hs as Hs.
  destruct Hform as (root' & f & input & q & ws0 & Hform).
  exists root, text, ws'. split_and!.
  - congruence.
  - unfold views_ready in *. by rewrite Hp, Hc.
  - exists root', f, input, q, ws'. rewrite Hp, Hc.
    destruct Hform as (? & ? & ? & ? & ? & ? & ? & ? & ?). by split_and!.
  - done.
  - congruence.
Qed.

(** A change of one of the four views keeps the page ready. *)
Lemma page_ready_view (st : Page) (root : element) p f :
  page_ready st → poll_canvas st = Some root →
  p ∈ [[1; 1; 1]; [3; 1; 3]; [3; 3; 3]; [3; 5; 3]]%nat →
  page_ready (set_poll_canvas (Some (update_at p f root)) st).
Proof.
  intros (root' & text & ws & Hcanvas & Hviews & Hform & Hws & Hls) Hroot Hp.
  destruct Hviews as (Hroot' & Ht & H1 & H2 & H3 & Het & He1 & He2 & He3 & Hsep).
  assert (root' = root) as -> by congruence.
  destruct Hform as (root' & f0 & input & q & ws0 & Hroot'' & Hf & Hf0 & Hl & Hq
                     & Hin & Hinput & Htext & Hws0).
  assert (root' = root) as -> by congruence.
  assert (Hother : prefixb p [1; 1; 3]%nat = false
                   ∧ prefixb [1; 1; 3]%nat p = false).
  { rewrite !elem_of_cons, elem_of_nil in Hp.
    destruct Hp as [->|[->|[->|[->|[]]]]]; done. }
  exists (update_at p f root), text, ws. split_and!; try done.
  - rewrite !elem_of_cons, elem_of_nil in Hp.
    unfold views_ready. cbn [poll_canvas canvas set_poll_canvas].
    split_and!; try done; apply get_at_update_is_Some; try done;
      destruct Hp as [->|[->|[->|[->|[]]]]]; first [by left | by right].
  - exists (update_at p f root), f0, input, q, ws0.
    cbn [poll_canvas canvas socket set_poll_canvas].
    split_and!; try done. destruct Hother. by rewrite get_at_update_other.
Qed.

(** A change of the text of the input field keeps the page ready. *)
Lemma page_ready_typed (st : Page) (root : element) v :
  page_ready st → poll_canvas st = Some root →
  page_ready (set_poll_canvas
                (Some (update_at [1; 1; 3; 1; 3]%nat (with_value v) root)) st).
Proof.
  intros (root' & text & ws & Hcanvas & Hviews & Hform & Hws & Hls) Hroot.
  destruct Hviews as (Hroot' & Ht & H1 & H2 & H3 & Het & He1 & He2 & He3 & Hsep).
  assert (root' = root) as -> by congruence.
  destruct Hform as (root' & f0 & input & q & ws0 & Hroot'' & Hf & Hf0 & Hl & Hq
                     & Hin & Hinput & Htext & Hws0).
  assert (root' = root) as -> by congruence.
  apply (app_inv_head [1; 1; 3]%nat [1; 3]%nat q) in Hin as <-.
  exists (update_at [1; 1; 3; 1; 3]%nat (with_value v) root), v, ws.
  split_and!; try done.
  - unfold views_ready. cbn [poll_canvas canvas set_poll_canvas].
    split_and!; try done; apply get_at_update_is_Some; try done; by right.
  - exists (update_at [1; 1; 3; 1; 3]%nat (with_value v) root),
           (update_at [1; 3]%nat (with_value v) f0), (with_value v input),
           [1; 3]%nat, ws0.
    cbn [poll_canvas canvas socket set_poll_canvas].
    split_and!; try done.
    + by apply (get_at_update_prefix root [1; 1; 3]%nat [1; 3]%nat).
    + by rewrite listeners_with_value.
    + by rewrite querySelector_with_value.
    + by apply get_at_update_same.
Qed.

Lemma keeps_ret {A} I (a : A) : keeps I (ret a).
Proof. by intros st. Qed.

Lemma keeps_throw {A} I e : keeps I (@throw A e).
Proof. by intros st. Qed.

Lemma keeps_lift {A} I (r : result A) : keeps I (lift r).
Proof. by intros st. Qed.

Lemma keeps_bind {A B} I (m : M A) (k : A → M B) :
  keeps I m → (∀ a, keeps I (k a)) → keeps I (bind m k).
Proof.
  intros Hm Hk st Hst. unfold bind. specialize (Hm st Hst).
  destruct (m st) as [[a|e] st']; [by apply Hk|done].
Qed.

(** [anket.canvas] is read on a ready page only. *)
Lemma keeps_canvas {B} (k : Canvas → M B) :
  keeps page_ready (k opened_canvas) →
  keeps page_ready (bind (gets canvas) k).
Proof.
  intros Hk st Hst. unfold bind, gets.
  destruct Hst as (root & text & ws & Hcanvas & Hst). rewrite Hcanvas.
  apply Hk. exists root, text, ws. by rewrite Hcanvas in *.
Qed.

Lemma keeps_forEach {A} I (f : A → M unit) l :
  (∀ x, keeps I (f x)) → keeps I (forEach f l).
Proof.
  intros Hf. induction l as [|x l IH]; [apply keeps_ret|].
  simpl. apply keeps_bind; auto.
Qed.

Lemma keeps_alert message : keeps page_ready (alert message).
Proof. intros st. by apply page_ready_frame. Qed.

Lemma keeps_mutate_view what p f :
  p ∈ [[1; 1; 1]; [3; 1; 3]; [3; 3; 3]; [3; 5; 3]]%nat →
  keeps page_ready (mutate what (Some p) f).
Proof.
  intros Hp st Hst. unfold mutate, bind, deref, modify.
  destruct (poll_canvas st) as [root|] eqn:Hroot; [|done].
  destruct (get_at root p); [|done]. simpl. rewrite Hroot. simpl.
  by apply page_ready_view.
Qed.

Lemma keeps_run (I : Page → Prop) (m : M unit) :
  keeps I m → (∀ st u, I st → I (set_uncaught u st)) →
  ∀ st, I st → I (run m st).
Proof.
  intros Hm Hu st Hst. unfold run. specialize (Hm st Hst).
  destruct (m st) as [[a|e] st']; [done|]. by apply Hu.
Qed.

Lemma page_ready_uncaught st u : page_ready st → page_ready (set_uncaught u st).
Proof. by apply page_ready_frame. Qed.

Lemma keeps_socket_send v : keeps page_ready (socket_send v).
Proof.
  intros st Hst. unfold socket_send.
  destruct (socket st) as [ws|] eqn:Hws; [|done].
  eapply page_ready_frame; [..|done]; try done. simpl. by rewrite Hws.
Qed.

Section ready_invariant.
Context `{!Platform}.

Lemma keeps_renderItems items p :
  p ∈ [[1; 1; 1]; [3; 1; 3]; [3; 3; 3]; [3; 5; 3]]%nat →
  keeps page_ready (anket_renderItems items (Some p)).
Proof.
  intros Hp. unfold anket_renderItems.
  apply keeps_bind; [by apply keeps_mutate_view|]. intros _.
  destruct items; try apply keeps_throw.
  apply keeps_forEach. intros details.
  apply keeps_bind; [apply keeps_lift|]. intros item.
  by apply keeps_mutate_view.
Qed.

Lemma keeps_case_ActionResponse data :
  keeps page_ready (case_ActionResponse data).
Proof.
  apply keeps_bind; [apply keeps_lift|]. intros content. apply keeps_alert.
Qed.

Lemma keeps_case_PollStateUpdate data :
  keeps page_ready (case_PollStateUpdate data).
Proof.
  unfold case_PollStateUpdate.
  repeat first
    [ apply keeps_renderItems
    | apply keeps_canvas; cbn [title top_items latest_items user_items
                                opened_canvas]
    | apply keeps_bind; [first [ apply keeps_lift
                               | apply keeps_mutate_view
                               | apply keeps_renderItems ]|intros ?] ];
    repeat constructor.
Qed.

(** The message listener of src/templates/poll.js keeps the page ready,
    whatever the message is and whether it returns or throws. *)
Lemma keeps_message_listener event_data :
  keeps page_ready (Frontend.message_listener event_data).
Proof.
  unfold Frontend.message_listener.
  apply keeps_bind; [apply keeps_lift|]. intros data.
  apply keeps_bind; [apply keeps_lift|]. intros type.
  destruct (strict_eq_string type "ActionResponse");
    [apply keeps_case_ActionResponse|].
  destruct (strict_eq_string type "PollStateUpdate");
    [apply keeps_case_PollStateUpdate|apply keeps_ret].
Qed.
End ready_invariant.

Lemma foldl_keeps {L} (I : Page → Prop) (f : Page → L → Page) ls :
  (∀ st l, I st → I (f st l)) → ∀ st, I st → I (foldl f st ls).
Proof.
  intros Hf. induction ls as [|l ls IH]; intros st Hst; simpl; auto.
Qed.

Lemma keeps_deref I what r : keeps I (deref what r).
Proof.
  intros st Hst. unfold deref.
  destruct r, (poll_canvas st) as [root|]; try done. by destruct (get_at root _).
Qed.

Lemma keeps_click_listener target l :
  keeps page_ready (click_listener target l).
Proof.
  destruct l; simpl; [apply keeps_ret| |];
    (apply keeps_bind; [apply keeps_deref|]); intros item;
    apply keeps_socket_send.
Qed.

Lemma click_ready target st : page_ready st → page_ready (click target st).
Proof.
  intros Hst. unfold click.
  destruct (poll_canvas st ≫= _) as [e|]; [|done].
  apply foldl_keeps; [|done]. intros st' l.
  apply keeps_run; [apply keeps_click_listener|]. intros.
  by apply page_ready_uncaught.
Qed.

Lemma page_ready_form st :
  page_ready st →
  ∃ root text, poll_canvas st = Some root ∧
               form_ready st [1; 1; 3]%nat [1; 1; 3; 1; 3]%nat text.
Proof.
  intros (root & text & ws & _ & (Hroot & _) & Hform & _). by exists root, text.
Qed.

Lemma submit_listener_keeps_ready : keeps page_ready Frontend.submit_listener.
Proof.
  intros st Hst. destruct (page_ready_form st Hst) as (root & text & Hroot & Hform).
  destruct (submit_listener_ready _ _ _ _ Hform) as (root' & Hroot' & ->).
  assert (root' = root) as -> by congruence.
  cbn [snd]. apply page_ready_typed.
  - case_bool_decide; simpl.
    + by eapply page_ready_frame; [..|exact Hst].
    + eapply page_ready_frame; [..|exact Hst]; try done.
      unfold with_sent. simpl. by destruct (socket st).
  - by case_bool_decide.
Qed.

Lemma submit_keeps_ready target st :
  page_ready st → page_ready (Frontend.submit target st).
Proof.
  intros Hst. unfold Frontend.submit.
  destruct (poll_canvas _ ≫= _) as [e|]; [|by eapply page_ready_frame].
  apply foldl_keeps; [|by eapply page_ready_frame]. intros st' l Hst'.
  destruct l; try done.
  apply keeps_run; [apply submit_listener_keeps_ready| |done].
  intros. by apply page_ready_uncaught.
Qed.

Lemma type_item_text_ready text st :
  page_ready st → page_ready (Frontend.type_item_text text st).
Proof.
  intros Hst. destruct (page_ready_form st Hst) as (root & t & Hroot & Hform).
  destruct Hform as (root' & f & input & q & ws & Hroot' & Hform & Hf & Hl & Hq
                     & Hin & _).
  assert (root' = root) as -> by congruence.
  unfold Frontend.type_item_text, Frontend.item_text_field, type_text.
  rewrite Hform. cbn [mbind option_bind]. rewrite Hroot.
  cbn [mbind option_bind]. rewrite Hf. cbn [mbind option_bind]. rewrite Hq.
  cbn [mbind option_bind fmap option_fmap option_map]. rewrite <- Hin.
  by apply page_ready_typed.
Qed.

(** [anket_initCanvas] makes a page ready once [anket_main] has run. *)
Lemma initCanvas_ready (st : Page) (root : element) (ws : WebSocket) :
  poll_canvas st = Some root →
  self (canvas st) = Some [] →
  socket st = Some ws →
  socket_listeners ws = main_listeners →
  page_ready (run Frontend.anket_initCanvas st).
Proof.
  intros Hroot Hself Hws Hls.
  destruct st as [loc pc [self t fo top lat usr] so al dp un].
  simpl in *. subst pc self so.
  eexists _, "", ws. split_and!; [reflexivity| | |reflexivity|done].
  - unfold views_ready. split_and!; try reflexivity; by eexists.
  - do 5 eexists. split_and!; reflexivity.
Qed.

Section reachable_states.
Context `{!Platform}.

Lemma socket_dispatch_ready ev st :
  page_ready st → page_ready (Frontend.socket_dispatch ev st).
Proof.
  intros Hst. unfold Frontend.socket_dispatch.
  destruct Hst as (root & text & ws & Hcanvas & Hviews & Hform & Hws & Hls).
  rewrite Hws, Hls.
  assert (Hst : page_ready st) by (exists root, text, ws; by split_and!).
  destruct ev; simpl.
  - by apply keeps_run; [apply keeps_alert|apply page_ready_uncaught|].
  - by apply keeps_run; [apply keeps_alert|apply page_ready_uncaught|].
  - destruct Hviews as (Hroot & _).
    eapply initCanvas_ready; [done| |done..]. by rewrite Hcanvas.
  - by apply keeps_run;
      [apply keeps_message_listener|apply page_ready_uncaught|].
Qed.

(** Every state of the page after the socket opened is ready: the four
    view references and the form are in place and separate, and the
    socket has its listeners. *)
Theorem reachable_ready st : Frontend.reachable st → page_ready st.
Proof.
  induction 1 as [loc root pollID Hid|st e _ IH].
  - rewrite (Frontend_load_page _ _ _ Hid).
    unfold Frontend.socket_dispatch. simpl.
    by eapply initCanvas_ready.
  - destruct e; simpl.
    + by apply socket_dispatch_ready.
    + by apply click_ready.
    + by apply submit_keeps_ready.
    + by apply type_item_text_ready.
Qed.
End reachable_states.

(** ** The claims on the states of the page *)

Lemma reachable_form `{!Platform} (st : Page) :
  Frontend.reachable st →
  ∃ text,
    form (canvas st) = Some [1; 1; 3]%nat ∧
    Frontend.item_text_field st = Some [1; 1; 3; 1; 3]%nat ∧
    value_at [1; 1; 3; 1; 3]%nat st = Some text ∧
    form_ready st [1; 1; 3]%nat [1; 1; 3; 1; 3]%nat text.
Proof.
  intros Hst. apply reachable_ready in Hst.
  destruct (page_ready_form st Hst) as (root & text & Hroot & Hform).
  exists text.
  destruct Hform as (root' & f & input & q & ws & Hroot' & Hf & Hf0 & Hl & Hq
                     & Hin & Hinput & Htext & Hws).
  assert (root' = root) as -> by congruence.
  assert (Hinput' : get_at root [1; 1; 3; 1; 3]%nat = Some input).
  { rewrite Hin, get_at_app, Hf0. done. }
  split_and!.
  - done.
  - unfold Frontend.item_text_field. rewrite Hf. cbn [mbind option_bind].
    rewrite Hroot. cbn [mbind option_bind]. rewrite Hf0.
    cbn [mbind option_bind]. rewrite Hq. cbn [mbind option_bind]. by rewrite Hin.
  - unfold value_at. rewrite Hroot. cbn [mbind option_bind].
    rewrite Hinput'. simpl. by rewrite Htext.
  - exists root, f, input, q, ws. by split_and!.
Qed.

Section claims_on_reachable_states.
Context `{!Platform}.

(** C3 (as the code has it): in every state of the page after the socket
    opened, a submission of the item form sends one AddItem message
    carrying the text of the input field as it is if and only if that
    text is not empty (its length is above 0), and sends nothing
    otherwise; the text is not trimmed. *)
Theorem C3_AddItem_sent_iff_text_not_empty
    (st : Page) (at_form at_input : path) (text : string) :
  Frontend.reachable st →
  form (canvas st) = Some at_form →
  Frontend.item_text_field st = Some at_input →
  value_at at_input st = Some text →
  sent_so_far (Frontend.submit at_form st)
  = sent_so_far st ++ (if bool_decide (text = "") then [] else [AddItem text]).
Proof.
  intros Hst Hform Hfield Hvalue.
  destruct (reachable_form st Hst) as (text' & Hform' & Hfield' & Hvalue' & Hready).
  assert (at_form = [1; 1; 3]%nat) as -> by congruence.
  assert (at_input = [1; 1; 3; 1; 3]%nat) as -> by congruence.
  assert (text' = text) as -> by congruence.
  destruct (submit_ready _ _ _ _ Hready) as (root & _ & -> & _).
  destruct Hready as (_ & _ & _ & _ & ws & _ & _ & _ & _ & _ & _ & _ & _ & Hws).
  unfold sent_so_far, with_sent. case_bool_decide; simpl; rewrite Hws; simpl.
  - by rewrite app_nil_r.
  - done.
Qed.

(** C10: in every state of the page after the socket opened, after a
    submission of the item form the input field is empty and the default
    action of the submit event is prevented, whether an AddItem message
    was sent or not. *)
Theorem C10_submit_clears_input_and_prevents_default
    (st : Page) (at_form at_input : path) :
  Frontend.reachable st →
  form (canvas st) = Some at_form →
  Frontend.item_text_field st = Some at_input →
  value_at at_input (Frontend.submit at_form st) = Some "" ∧
  defaultPrevented (Frontend.submit at_form st) = true.
Proof.
  intros Hst Hform Hfield.
  destruct (reachable_form st Hst) as (text & Hform' & Hfield' & _ & Hready).
  assert (at_form = [1; 1; 3]%nat) as -> by congruence.
  assert (at_input = [1; 1; 3; 1; 3]%nat) as -> by congruence.
  destruct (submit_ready _ _ _ _ Hready) as (root & _ & -> & Hv).
  unfold value_at. simpl. split; [done|]. by case_bool_decide.
Qed.

(** C4: in every state of the page after the socket opened, for every
    received message of type "PollStateUpdate" whose content holds a
    poll title and three arrays of item objects, the listener returns,
    the title element shows [content.poll_title], and the children of
    each of the three containers are replaced by exactly the elements
    [anket_makeItem] builds for the entries of [top_items],
    [latest_items] and [user_items], one per entry and in the order
    received. *)
Theorem C4_poll_state_update_replaces_view
    (st : Page) (data content poll_title : value)
    (tops latests users : list value) :
  Frontend.reachable st →
  get data "type" = Return (VStr "PollStateUpdate") →
  get data "content" = Return content →
  get content "poll_title" = Return poll_title →
  get content "top_items" = Return (VArr tops) →
  get content "latest_items" = Return (VArr latests) →
  get content "user_items" = Return (VArr users) →
  Forall (λ details, ∃ props, details = VObj props) (tops ++ latests ++ users) →
  ∃ st' top_els latest_els user_els,
    Frontend.message_listener (Some data) st = (Return tt, st') ∧
    rendered tops top_els ∧
    rendered latests latest_els ∧
    rendered users user_els ∧
    canvas st' = canvas st ∧
    content_of (title (canvas st')) st'
    = Some (text_fragment "" (innerText_string poll_title)) ∧
    content_of (top_items (canvas st')) st' = Some (Element <$> top_els) ∧
    content_of (latest_items (canvas st')) st' = Some (Element <$> latest_els) ∧
    content_of (user_items (canvas st')) st' = Some (Element <$> user_els).
Proof.
  intros Hst. apply reachable_ready in Hst.
  destruct Hst as (root & text & ws & _ & Hviews & _).
  intros. by eapply (poll_state_update_replaces_view st root).
Qed.
End claims_on_reachable_states.

Lemma opened_page_reachable : @Frontend.reachable decimal_platform opened_page.
Proof.
  exact (@Frontend.reachable_opened decimal_platform example_location
           empty_poll_canvas "abc" eq_refl).
Qed.

(** C3, counterexample: on the opened page of the example the user types
    one space and submits the form; the text is empty once trimmed, and
    an AddItem message with the space as its text is sent. *)
Lemma C3_whitespace_only_text_is_sent :
  let st := @Frontend.handle decimal_platform (Frontend.TypeItemText " ")
              opened_page in
  @Frontend.reachable decimal_platform st ∧
  value_at [1; 1; 3; 1; 3]%nat st = Some " " ∧
  trim " " = "" ∧
  sent_so_far (Frontend.submit [1; 1; 3]%nat st) = sent_so_far st ++ [AddItem " "] ∧
  ¬ AddItem_iff_trimmed_text_not_empty st [1; 1; 3]%nat " ".
Proof.
  split_and!; try reflexivity.
  - apply Frontend.reachable_event, opened_page_reachable.
  - intros [Hsent _]. apply Hsent; [|reflexivity]. by exists " ".
Qed.

Lemma C3_AddItem_sent_witness :
  let st := @Frontend.handle decimal_platform (Frontend.TypeItemText "Pizza")
              opened_page in
  sent_so_far (Frontend.submit [1; 1; 3]%nat st)
  = sent_so_far st
    ++ (if bool_decide ("Pizza" = "") then [] else [AddItem "Pizza"]).
Proof.
  apply (@C3_AddItem_sent_iff_text_not_empty decimal_platform
           (@Frontend.handle decimal_platform (Frontend.TypeItemText "Pizza")
              opened_page)
           [1; 1; 3]%nat [1; 1; 3; 1; 3]%nat "Pizza");
    [|reflexivity..].
  apply Frontend.reachable_event, opened_page_reachable.
Defined.

Lemma C10_submit_witness :
  let st := @Frontend.handle decimal_platform (Frontend.TypeItemText "Pizza")
              opened_page in
  value_at [1; 1; 3; 1; 3]%nat (Frontend.submit [1; 1; 3]%nat st) = Some "" ∧
  defaultPrevented (Frontend.submit [1; 1; 3]%nat st) = true.
Proof.
  apply (@C10_submit_clears_input_and_prevents_default decimal_platform
           (@Frontend.handle decimal_platform (Frontend.TypeItemText "Pizza")
              opened_page)
           [1; 1; 3]%nat [1; 1; 3; 1; 3]%nat);
    [|reflexivity..].
  apply Frontend.reachable_event, opened_page_reachable.
Defined.

Lemma C4_poll_state_update_witness :
  ∃ st' top_els latest_els user_els,
    @Frontend.message_listener decimal_platform (Some example_update) opened_page
    = (Return tt, st') ∧
    @rendered decimal_platform
      [example_item 7 "Pizza" 1 1; example_item 8 "Soup" 0 (-1)] top_els ∧
    @rendered decimal_platform
      [example_item 8 "Soup" 0 (-1); example_item 7 "Pizza" 1 1] latest_els ∧
    @rendered decimal_platform [example_item 7 "Pizza" 1 1] user_els ∧
    canvas st' = canvas opened_page ∧
    content_of (title (canvas st')) st'
    = Some (text_fragment "" (innerText_string (VStr "Lunch"))) ∧
    content_of (top_items (canvas st')) st' = Some (Element <$> top_els) ∧
    content_of (latest_items (canvas st')) st' = Some (Element <$> latest_els) ∧
    content_of (user_items (canvas st')) st' = Some (Element <$> user_els).
Proof.
  eapply (@C4_poll_state_update_replaces_view decimal_platform
            opened_page example_update); try reflexivity.
  - apply opened_page_reachable.
  - repeat constructor; eexists; reflexivity.
Defined.

(** * Further properties *)

(** ** Pathnames as strings *)

Lemma append_cons c (a b : string) : String c a +:+ b = String c (a +:+ b).
Proof. reflexivity. Qed.

Lemma append_assoc (a b c : string) : (a +:+ b) +:+ c = a +:+ (b +:+ c).
Proof. induction a as [|x a IH]; [done|]. by rewrite !append_cons, IH. Qed.

Lemma append_length (a b : string) :
  String.length (a +:+ b) = (String.length a + String.length b)%nat.
Proof. induction a as [|x a IH]; [done|]. rewrite append_cons. simpl. by rewrite IH. Qed.

Lemma append_inv_tail (a b t : string) : a +:+ t = b +:+ t → a = b.
Proof.
  revert b. induction a as [|x a IH]; intros [|y b] Hab; [done| | |].
  - apply (f_equal String.length) in Hab.
    rewrite !append_length in Hab. simpl in Hab. lia.
  - apply (f_equal String.length) in Hab.
    rewrite !append_length in Hab. simpl in Hab. lia.
  - rewrite !append_cons in Hab. injection Hab as -> Hab. f_equal. by apply IH.
Qed.

Lemma split_append sep (a b : string) :
  split sep (a +:+ String sep b) = split sep a ++ split sep b.
Proof.
  induction a as [|c a IH].
  - change ("" +:+ String sep b) with (String sep b). simpl.
    by rewrite Ascii.eqb_refl.
  - rewrite append_cons. simpl. rewrite IH.
    destruct (Ascii.eqb c sep); [done|].
    pose proof (split_nonempty sep a). by destruct (split sep a).
Qed.

Lemma split_without sep (s : string) : contains sep s = false → split sep s = [s].
Proof.
  induction s as [|c s IH]; [done|]. simpl.
  intros [Hc Hs]%orb_false_iff. by rewrite Hc, IH.
Qed.

Lemma split_segments_without sep (s : string) :
  Forall (λ segment, contains sep segment = false) (split sep s).
Proof.
  induction s as [|c s IH]; simpl; [by repeat constructor|].
  destruct (Ascii.eqb c sep) eqn:Hc; [by constructor|].
  destruct (split sep s) as [|segment segments].
  - repeat constructor. simpl. by rewrite Hc.
  - apply Forall_cons in IH as [Hsegment Hsegments].
    constructor; [|done]. simpl. by rewrite Hc.
Qed.

(** [split] and [join] are inverse on the side the script uses. *)
Lemma join_split sep (s : string) : join (String sep "") (split sep s) = s.
Proof.
  induction s as [|c s IH]; [done|]. simpl.
  pose proof (split_nonempty sep s) as Hne.
  destruct (Ascii.eqb_spec c sep) as [->|Hc].
  - destruct (split sep s) as [|segment segments]; [done|].
    change (join (String sep "") ("" :: segment :: segments))
      with (String sep (join (String sep "") (segment :: segments))).
    by rewrite IH.
  - destruct (split sep s) as [|segment [|segment' segments]]; [done|..].
    + simpl in *. by rewrite IH.
    + change (join (String sep "") (String c segment :: segment' :: segments))
        with (String c (join (String sep "") (segment :: segment' :: segments))).
      by rewrite IH.
Qed.

Lemma join_app sep (l1 l2 : list string) :
  l1 ≠ [] → l2 ≠ [] →
  join sep (l1 ++ l2) = join sep l1 +:+ sep +:+ join sep l2.
Proof.
  intros H1 H2. induction l1 as [|a [|b l1] IH]; [done| |].
  - destruct l2; done.
  - change (join sep ((a :: b :: l1) ++ l2))
      with (a +:+ sep +:+ join sep ((b :: l1) ++ l2)).
    rewrite IH by done.
    change (join sep (a :: b :: l1)) with (a +:+ sep +:+ join sep (b :: l1)).
    by rewrite !append_assoc.
Qed.

Lemma getPollID_of_pathname (loc : Location) (pre id : string) :
  pathname loc = pre +:+ "/p/" +:+ id → id ≠ "" → contains "/" id = false →
  anket_getPollID loc = Return id.
Proof.
  intros Hp Hid Hno.
  assert (Hs : split "/" (pathname loc) = split "/" pre ++ ["p"; id]).
  { rewrite Hp.
    change ("/p/" +:+ id) with (String "/" ("p" +:+ String "/" id)).
    by rewrite !split_append, (split_without _ id). }
  rewrite (getPollID_two loc _ "p" id Hs). by rewrite bool_decide_true.
Qed.

(** X1: [anket_getPollID] returns [id] exactly when [id] is not empty, has
    no "/" in it, and the pathname is "p/" followed by [id] or ends in
    "/p/" followed by [id]; in particular a pathname that ends in "/" is
    always refused. *)
Theorem X1_getPollID_pathname_shape (loc : Location) (id : string) :
  (anket_getPollID loc = Return id ↔
   id ≠ "" ∧ contains "/" id = false ∧
   (pathname loc = "p/" +:+ id ∨ ∃ pre, pathname loc = pre +:+ "/p/" +:+ id)) ∧
  (∀ s, pathname loc = s +:+ "/" → anket_getPollID loc = Throw poll_id_error).
Proof.
  split.
  - split.
    + intros Hid.
      destruct (last_two (split "/" (pathname loc)))
        as [Hs|[[x Hs]|(pre & a & b & Hs)]].
      * by destruct (split_nonempty "/" (pathname loc)).
      * by rewrite (getPollID_one loc x Hs) in Hid.
      * rewrite (getPollID_two loc pre a b Hs) in Hid.
        case_bool_decide as Hab; [|done]. destruct Hab as [-> Hb].
        injection Hid as ->. split; [done|].
        pose proof (split_segments_without "/" (pathname loc)) as Hno.
        rewrite Hs in Hno. apply Forall_app in Hno as [_ Hno].
        apply Forall_cons in Hno as [_ Hno]. apply Forall_cons in Hno as [Hno _].
        split; [done|].
        pose proof (join_split "/" (pathname loc)) as Hjoin. rewrite Hs in Hjoin.
        destruct pre as [|segment pre]; [by left|]. right.
        rewrite join_app in Hjoin by done.
        exists (join "/" (segment :: pre)). rewrite <- Hjoin. reflexivity.
    + intros (Hid & Hno & [Hp|[pre Hp]]).
      * assert (Hs : split "/" (pathname loc) = [] ++ ["p"; id]).
        { rewrite Hp. change ("p/" +:+ id) with ("p" +:+ String "/" id).
          by rewrite split_append, (split_without _ id). }
        rewrite (getPollID_two loc [] "p" id Hs). by rewrite bool_decide_true.
      * by apply (getPollID_of_pathname loc pre).
  - intros s Hp.
    assert (Hs : split "/" (pathname loc) = split "/" s ++ [""]).
    { rewrite Hp. change "/" with (String "/" ""). by rewrite split_append. }
    destruct (last_two (split "/" s)) as [Hs'|[[x Hs']|(pre & a & b & Hs')]].
    + by destruct (split_nonempty "/" s).
    + rewrite Hs' in Hs. rewrite (getPollID_two loc [] x "" Hs).
      rewrite bool_decide_false; [done|]. by intros [_ ?].
    + rewrite Hs', <- app_assoc in Hs.
      rewrite (getPollID_two loc (pre ++ [a]) b "").
      * rewrite bool_decide_false; [done|]. by intros [_ ?].
      * by rewrite Hs, <- app_assoc.
Qed.

(** X2: on a page whose pathname ends in "/p/" followed by a poll id,
    [anket_main] constructs the socket for the path /p/{id}/ws at the
    root of the host, whatever precedes "/p/" in the pathname of the
    page: src/templates/poll.js with the scheme and the host of the page,
    server/src/templates/poll.js with the bare path. *)
Theorem X2_socket_path_drops_page_prefix
    (loc : Location) (root : element) (pre id : string) :
  pathname loc = pre +:+ "/p/" +:+ id → id ≠ "" → contains "/" id = false →
  url <$> socket (Frontend.load (loaded loc (Some root)))
  = Some ((if String.eqb (protocol loc) "https:" then "wss" else "ws")
          +:+ "://" +:+ host loc +:+ "/p/" +:+ id +:+ "/ws") ∧
  url <$> socket (Server.load (loaded loc (Some root)))
  = Some ("/p/" +:+ id +:+ "/ws").
Proof.
  intros Hp Hid Hno.
  pose proof (getPollID_of_pathname loc pre id Hp Hid Hno) as Hget.
  by rewrite (Frontend_load_page _ _ _ Hget), (Server_load_socket _ _ _ Hget).
Qed.

Lemma X2_socket_path_witness :
  let loc := {| pathname := "/polls/p/abc"; protocol := "http:";
                host := "anket.example" |} in
  url <$> socket (Frontend.load (loaded loc (Some empty_poll_canvas)))
  = Some "ws://anket.example/p/abc/ws" ∧
  url <$> socket (Server.load (loaded loc (Some empty_poll_canvas)))
  = Some "/p/abc/ws".
Proof.
  apply (X2_socket_path_drops_page_prefix
           {| pathname := "/polls/p/abc"; protocol := "http:";
              host := "anket.example" |} empty_poll_canvas "/polls" "abc");
    [reflexivity|discriminate|reflexivity].
Defined.

(** X3: on one page, [anket_getWSUrl] gives two poll ids the same URL
    only when they are the same id. *)
Theorem X3_getWSUrl_injective (loc : Location) (id id' : string) :
  anket_getWSUrl loc id = anket_getWSUrl loc id' ↔ id = id'.
Proof.
  split; [|by intros ->]. unfold anket_getWSUrl. intros Hurl.
  do 4 apply (inj (String.app _)) in Hurl. by apply append_inv_tail in Hurl.
Qed.

(** ** Items built from any details *)


Lemma matches_by_attrs selector (e e' : element) :
  attrs e = attrs e' → matches selector e = matches selector e'.
Proof. intros He. unfold matches. by rewrite He. Qed.

Section items_from_any_details.
Context `{!Platform}.

Local Opaque ToString innerText_string text_fragment loose_eq_num pretty.

(** The item of four property values: its attributes and what it shows. *)
Lemma anket_makeItem_values (id text score user_vote : value) :
  ∃ item,
    anket_makeItem (VObj [("id", id); ("text", text); ("score", score);
                          ("user_vote", user_vote)]) = Return item ∧
    getAttribute item "anket-itemID" = Some (ToString id) ∧
    getAttribute item "anket-itemUserVote" = Some (ToString user_vote) ∧
    shown ".option-score" item = Some (text_fragment "" (innerText_string score)) ∧
    shown ".option-content" item = Some (text_fragment "" (innerText_string text)) ∧
    shown ".option-vote-up" item
    = Some [Text (if loose_eq_num user_vote 1 then "⬆" else "⇧")] ∧
    shown ".option-vote-down" item
    = Some [Text (if loose_eq_num user_vote (-1) then "⬇" else "⇩")].
Proof.
  destruct glyph_fragments as (Hup1 & Hup0 & Hdown1 & Hdown0).
  eexists. split; [lazy; reflexivity|].
  unfold shown, querySelector.
  split_and!; simpl; rewrite ?text_fragment_no_match; simpl;
    rewrite ?innerText_string_VStr; try reflexivity.
  - by destruct (loose_eq_num user_vote 1); rewrite ?Hup1, ?Hup0.
  - by destruct (loose_eq_num user_vote (-1)); rewrite ?Hdown1, ?Hdown0.
Qed.

End items_from_any_details.

Lemma append_nil_r (s : string) : s +:+ "" = s.
Proof. induction s as [|c s IH]; [done|]. by rewrite append_cons, IH. Qed.

Lemma rev_app_append (s1 s2 : string) :
  String.rev_app s1 s2 = String.rev s1 +:+ s2.
Proof.
  revert s2. induction s1 as [|c s1 IH]; intros s2; [done|].
  unfold String.rev. simpl. rewrite (IH (String c s2)), (IH (String c "")).
  by rewrite append_assoc.
Qed.

(** A line that was started and has no line break left in it is one
    text node. *)
Lemma text_fragment_started (cur s : string) :
  cur ≠ "" → contains LF s = false → contains CR s = false →
  text_fragment cur s = [Text (String.rev cur +:+ s)].
Proof.
  revert cur. induction s as [|c s IH]; intros cur Hcur HLF HCR.
  - simpl. rewrite bool_decide_false by done. by rewrite append_nil_r.
  - simpl in HLF, HCR.
    apply orb_false_iff in HLF as [Hc1 HLF]. apply orb_false_iff in HCR as [Hc2 HCR].
    simpl. rewrite Hc1, Hc2. rewrite IH by done.
    unfold String.rev. simpl. by rewrite rev_app_append, append_assoc.
Qed.

Lemma text_fragment_one_line (s : string) :
  contains LF s = false → contains CR s = false →
  text_fragment "" s = if bool_decide (s = "") then [] else [Text s].
Proof.
  destruct s as [|c s]; [done|]. intros HLF HCR. simpl in HLF, HCR.
  apply orb_false_iff in HLF as [Hc1 HLF]. apply orb_false_iff in HCR as [Hc2 HCR].
  simpl. rewrite Hc1, Hc2. by rewrite text_fragment_started.
Qed.

Section items_and_their_text.
Context `{!Platform}.

Local Opaque ToString innerText_string text_fragment loose_eq_num pretty.

Lemma anket_makeItem_Return (details : value) (item : element) :
  anket_makeItem details = Return item →
  ∃ id text score user_vote,
    get details "text" = Return text ∧
    anket_makeItem (VObj [("id", id); ("text", text); ("score", score);
                          ("user_vote", user_vote)]) = Return item.
Proof.
  intros Hitem.
  assert (∃ id text score user_vote,
            get details "id" = Return id ∧ get details "text" = Return text ∧
            get details "score" = Return score ∧
            get details "user_vote" = Return user_vote)
    as (id & text & score & user_vote & Hid & Htext & Hscore & Huv)
    by (destruct details; first [done | do 4 eexists; split_and!; reflexivity]).
  exists id, text, score, user_vote. split; [done|].
  by rewrite <- (anket_makeItem_get _ _ _ _ _ Hid Htext Hscore Huv).
Qed.

(** X5: the text, the score and the other values of an item never become
    markup: for every item [anket_makeItem] returns, an id selector or a
    class selector finds the same place in the item as in the bare item
    template, whatever the details were. *)
Theorem X5_item_values_never_become_markup
    (details : value) (item : element) (selector : string) :
  anket_makeItem details = Return item →
  querySelector selector item
  = querySelector selector
      (set_innerHTML anket_HTML_item (createElement "div")).
Proof.
  intros Hitem.
  destruct (anket_makeItem_Return _ _ Hitem)
    as (id & text & score & user_vote & _ & Hmake).
  lazy in Hmake. injection Hmake as <-.
  pose (m := λ a : list (string * string),
          matches selector {| tag := ""; attrs := a; value_of := "";
                              listeners := []; children := [] |}).
  assert (Hm : ∀ e : element, matches selector e = m (attrs e))
    by (intros e; by apply matches_by_attrs).
  clearbody m. unfold querySelector, set_innerHTML, anket_HTML_item, parsed.
  cbn [children with_children first_child match_or_descend indent createElement].
  rewrite !Hm. cbn [attrs]. by rewrite !text_fragment_no_match.
Qed.

(** X6: a text with no line break in it is shown as it is: the content
    element of the item holds one text node with the text, and nothing
    when the text is empty. *)
Theorem X6_one_line_text_is_one_text_node
    (details : value) (item : element) (text : string) :
  anket_makeItem details = Return item →
  get details "text" = Return (VStr text) →
  contains LF text = false → contains CR text = false →
  shown ".option-content" item
  = Some (if bool_decide (text = "") then [] else [Text text]).
Proof.
  intros Hitem Htext HLF HCR.
  destruct (anket_makeItem_Return _ _ Hitem)
    as (id & text' & score & user_vote & Htext' & Hmake).
  assert (text' = VStr text) as -> by congruence.
  destruct (anket_makeItem_values id (VStr text) score user_vote)
    as (item' & Hmake' & _ & _ & _ & Hshown & _).
  assert (item' = item) as -> by congruence.
  by rewrite Hshown, innerText_string_VStr, text_fragment_one_line.
Qed.
End items_and_their_text.

Lemma X5_item_values_witness :
  querySelector ".option-content" example_item_element
  = querySelector ".option-content"
      (set_innerHTML anket_HTML_item (createElement "div")).
Proof.
  apply (@X5_item_values_never_become_markup decimal_platform
           (example_item 7 "Pizza" 1 1)).
  reflexivity.
Defined.

Lemma X6_one_line_text_witness :
  shown ".option-content" example_item_element
  = Some (if bool_decide ("Pizza" = "") then [] else [Text "Pizza"]).
Proof.
  apply (@X6_one_line_text_is_one_text_node decimal_platform
           (example_item 7 "Pizza" 1 1)); reflexivity.
Defined.

(** ** Lists that do not render to the end *)

Lemma forEach_app {A} (f : A → M unit) (l1 l2 : list A) st :
  forEach f (l1 ++ l2) st = bind (forEach f l1) (λ _, forEach f l2) st.
Proof.
  revert st. induction l1 as [|x l1 IH]; intros st; [reflexivity|].
  simpl. unfold bind. destruct (f x st) as [[[]|e] st']; [|done].
  rewrite IH. reflexivity.
Qed.

Section partial_lists.
Context `{!Platform}.

(** X7: [anket_renderItems] empties its target before it looks at the
    items, and appends item by item: on an array with a [null] or
    [undefined] entry it throws a TypeError and leaves the items before
    that entry in the target, and on a value that is not an array it
    throws a TypeError and leaves the target empty. *)
Theorem X7_renderItems_stops_at_bad_entry
    (st : Page) (root e : element) (target : path) :
  poll_canvas st = Some root →
  get_at root target = Some e →
  (∀ before bad after els,
     rendered before els → bad = VNull ∨ bad = VUndefined →
     ∃ message,
       anket_renderItems (VArr (before ++ bad :: after)) (Some target) st
       = (Throw (TypeError message),
          set_poll_canvas
            (Some (update_at target (with_children (Element <$> els)) root))
            st)) ∧
  (∀ items, (∀ elts, items ≠ VArr elts) →
     ∃ message,
       anket_renderItems items (Some target) st
       = (Throw (TypeError message),
          set_poll_canvas (Some (update_at target (with_children []) root)) st)).
Proof.
  intros Hroot He. split.
  - intros before bad after els Hbefore Hbad.
    assert (∃ message, anket_makeItem bad = Throw (TypeError message))
      as [message Hthrow] by (destruct Hbad as [-> | ->]; by eexists).
    exists message. unfold anket_renderItems.
    erewrite bind_Return; [|by eapply mutate_Some].
    rewrite forEach_app.
    erewrite bind_Return; last first.
    { eapply (forEach_appendChild _ root target e before els []); try done. }
    rewrite set_poll_canvas_twice. simpl forEach.
    erewrite bind_Throw; [done|].
    erewrite bind_Throw; [done|]. unfold lift. by rewrite Hthrow.
  - intros items Hitems. unfold anket_renderItems.
    erewrite bind_Return; [|by eapply mutate_Some].
    destruct items; try (by eexists). by destruct (Hitems elts).
Qed.
End partial_lists.

Lemma X7_renderItems_witness :
  (∀ before bad after els,
     @rendered decimal_platform before els → bad = VNull ∨ bad = VUndefined →
     ∃ message,
       @anket_renderItems decimal_platform (VArr (before ++ bad :: after))
         (Some [3; 1; 3]%nat) updated_page
       = (Throw (TypeError message),
          set_poll_canvas
            (Some (update_at [3; 1; 3]%nat (with_children (Element <$> els))
                     updated_root))
            updated_page)) ∧
  (∀ items, (∀ elts, items ≠ VArr elts) →
     ∃ message,
       @anket_renderItems decimal_platform items (Some [3; 1; 3]%nat) updated_page
       = (Throw (TypeError message),
          set_poll_canvas
            (Some (update_at [3; 1; 3]%nat (with_children []) updated_root))
            updated_page)).
Proof.
  eapply (@X7_renderItems_stops_at_bad_entry decimal_platform updated_page
            updated_root); reflexivity.
Defined.

(** ** What listeners leave alone *)

Lemma keeps_gets {A} I (f : Page → A) : keeps I (gets f).
Proof. by intros st. Qed.

Lemma keeps_modify_connection I (f : Page → Page) :
  about_connection I →
  (∀ st, location (f st) = location st ∧ socket (f st) = socket st) →
  keeps I (modify f).
Proof. intros HI Hf st Hst. destruct (Hf st). by apply (HI st). Qed.

Lemma keeps_mutate_connection I what r f :
  about_connection I → keeps I (mutate what r f).
Proof.
  intros HI. apply keeps_bind; [apply keeps_deref|]. intros _.
  by apply keeps_modify_connection.
Qed.

Lemma keeps_alert_connection I message :
  about_connection I → keeps I (alert message).
Proof. intros HI. by apply keeps_modify_connection. Qed.

Lemma keeps_query I what r selector : keeps I (query what r selector).
Proof. apply keeps_bind; [apply keeps_deref|]. intros e. apply keeps_ret. Qed.

Lemma keeps_canvas_query_connection I set selector :
  about_connection I → keeps I (canvas_query set selector).
Proof.
  intros HI. apply keeps_bind; [apply keeps_gets|]. intros c.
  apply keeps_bind; [apply keeps_query|]. intros r.
  by apply keeps_modify_connection.
Qed.

Lemma keeps_canvas_innerHTML_connection I nodes :
  about_connection I → keeps I (canvas_innerHTML nodes).
Proof.
  intros HI. apply keeps_bind; [apply keeps_gets|]. intros c.
  by apply keeps_mutate_connection.
Qed.

Lemma keeps_initCanvas_connection I :
  about_connection I →
  keeps I Frontend.anket_initCanvas ∧ keeps I Server.anket_initCanvas.
Proof.
  intros HI. split.
  - unfold Frontend.anket_initCanvas.
    repeat first
      [ apply keeps_canvas_query_connection
      | apply keeps_canvas_innerHTML_connection
      | apply keeps_mutate_connection
      | apply keeps_gets
      | apply keeps_bind; [|intros ?] ]; done.
  - unfold Server.anket_initCanvas.
    repeat first
      [ apply keeps_canvas_query_connection
      | apply keeps_canvas_innerHTML_connection
      | apply keeps_bind; [|intros ?] ]; done.
Qed.

Section listeners_and_the_connection.
Context `{!Platform}.

Lemma keeps_renderItems_connection I items target :
  about_connection I → keeps I (anket_renderItems items target).
Proof.
  intros HI. unfold anket_renderItems.
  apply keeps_bind; [by apply keeps_mutate_connection|]. intros _.
  destruct items; try apply keeps_throw.
  apply keeps_forEach. intros details.
  apply keeps_bind; [apply keeps_lift|]. intros item.
  by apply keeps_mutate_connection.
Qed.

Lemma keeps_case_ActionResponse_connection I data :
  about_connection I → keeps I (case_ActionResponse data).
Proof.
  intros HI. apply keeps_bind; [apply keeps_lift|]. intros content.
  by apply keeps_alert_connection.
Qed.

Lemma keeps_case_PollStateUpdate_connection I data :
  about_connection I → keeps I (case_PollStateUpdate data).
Proof.
  intros HI. unfold case_PollStateUpdate.
  repeat first
    [ apply keeps_renderItems_connection
    | apply keeps_mutate_connection
    | apply keeps_lift
    | apply keeps_gets
    | apply keeps_bind; [|intros ?] ]; done.
Qed.

Lemma keeps_message_listener_connection I event_data :
  about_connection I →
  keeps I (Frontend.message_listener event_data) ∧
  keeps I (Server.message_listener event_data).
Proof.
  intros HI. split.
  - unfold Frontend.message_listener.
    apply keeps_bind; [apply keeps_lift|]. intros data.
    apply keeps_bind; [apply keeps_lift|]. intros type.
    destruct (strict_eq_string type "ActionResponse");
      [by apply keeps_case_ActionResponse_connection|].
    destruct (strict_eq_string type "PollStateUpdate");
      [by apply keeps_case_PollStateUpdate_connection|apply keeps_ret].
  - unfold Server.message_listener.
    apply keeps_bind; [apply keeps_lift|]. intros data.
    apply keeps_bind; [apply keeps_lift|]. intros type.
    destruct (strict_eq_string type "ActionResponse").
    { apply keeps_bind; [by apply keeps_case_ActionResponse_connection|].
      intros _. by apply keeps_case_PollStateUpdate_connection. }
    destruct (strict_eq_string type "PollStateUpdate");
      [by apply keeps_case_PollStateUpdate_connection|apply keeps_ret].
Qed.

(** X8: the message listener of either file never touches the socket:
    whatever arrives, well formed or not, and whether the listener
    returns or throws, nothing is sent in answer and [anket.socket] and
    the location stay what they were. *)
Theorem X8_receiving_never_sends (event_data : option value) (st : Page) :
  socket (Frontend.message_listener event_data st).2 = socket st ∧
  location (Frontend.message_listener event_data st).2 = location st ∧
  socket (Server.message_listener event_data st).2 = socket st ∧
  location (Server.message_listener event_data st).2 = location st.
Proof.
  pose (I := λ st', socket st' = socket st ∧ location st' = location st).
  assert (HI : about_connection I).
  { intros st1 st2 Hl Hs [? ?]. unfold I. by rewrite Hl, Hs. }
  destruct (keeps_message_listener_connection I event_data HI) as [HF HS].
  destruct (HF st) as [? ?]; [done|]. destruct (HS st) as [? ?]; [done|].
  done.
Qed.


(** X10: under server/src/templates/poll.js, on every page whose title
    and lists are in place, a message of type "ActionResponse" with a
    string as content is shown as an alert and then handled as a poll
    state update: the title is set to "undefined", the top list is
    emptied, and the listener ends with the TypeError of
    [undefined.forEach]; the other two lists are not reached. *)
Theorem X10_server_ActionResponse_runs_update
    (st : Page) (root : element) (at_title at_top at_latest at_user : path)
    (data : value) (notice : string) :
  views_ready st root at_title at_top at_latest at_user →
  get data "type" = Return (VStr "ActionResponse") →
  get data "content" = Return (VStr notice) →
  ∃ st',
    Server.message_listener (Some data) st
    = (Throw (TypeError "Cannot read properties of undefined (reading 'forEach')"),
       st') ∧
    alerts st' = alerts st ++ [notice] ∧
    content_of (title (canvas st')) st' = Some [Text "undefined"] ∧
    content_of (top_items (canvas st')) st' = Some [] ∧
    content_of (latest_items (canvas st')) st'
    = content_of (latest_items (canvas st)) st ∧
    content_of (user_items (canvas st')) st'
    = content_of (user_items (canvas st)) st.
Proof.
  intros Hready Htype Hcontent.
  rewrite (Server_ActionResponse_falls_through _ _ _ _ _ _ _ _ Hready Htype Hcontent).
  destruct Hready as (Hroot & Htitle & Htop & Hlatest & Huser & [et Het]
                      & [e1 He1] & [e2 He2] & [e3 He3] & Hsep).
  apply separate_four in Hsep
    as ((?&?) & (?&?) & (?&?) & (?&?) & (?&?) & (?&?)).
  eexists. split; [done|].
  cbn [alerts canvas set_poll_canvas with_alert set_alerts].
  rewrite Htitle, Htop, Hlatest, Huser. unfold content_of.
  cbn [mbind option_bind poll_canvas set_poll_canvas with_alert set_alerts].
  rewrite Hroot. cbn [mbind option_bind].
  split_and!; try done.
  - rewrite get_at_update_other by done.
    by rewrite (get_at_update_same _ _ _ et).
  - erewrite get_at_update_same; [done|]. by rewrite get_at_update_other.
  - by rewrite !get_at_update_other.
  - by rewrite !get_at_update_other.
Qed.

(** X11: the two files differ on messages of type "ActionResponse"
    only: on every other message, and on data that is not JSON, the
    message listener of server/src/templates/poll.js does what the one
    of src/templates/poll.js does, with the same result and the same
    page. *)
Theorem X11_listeners_agree_off_ActionResponse
    (event_data : option value) (st : Page) :
  (∀ data, event_data = Some data →
     get data "type" ≠ Return (VStr "ActionResponse")) →
  Server.message_listener event_data st
  = Frontend.message_listener event_data st.
Proof.
  intros Hother. unfold Server.message_listener, Frontend.message_listener.
  destruct event_data as [data|]; [|done]. specialize (Hother data eq_refl).
  unfold bind, lift. simpl JSON_parse. cbv iota beta.
  destruct (get data "type") as [type|e]; [|done]. cbv iota beta.
  rewrite (strict_eq_string_false type "ActionResponse") by congruence.
  done.
Qed.
End listeners_and_the_connection.


Lemma X10_server_ActionResponse_witness :
  ∃ st',
    @Server.message_listener decimal_platform (Some example_ActionResponse)
      server_updated_page
    = (Throw (TypeError "Cannot read properties of undefined (reading 'forEach')"),
       st') ∧
    alerts st' = alerts server_updated_page ++ ["Text is empty"] ∧
    content_of (title (canvas st')) st' = Some [Text "undefined"] ∧
    content_of (top_items (canvas st')) st' = Some [] ∧
    content_of (latest_items (canvas st')) st'
    = content_of (latest_items (canvas server_updated_page)) server_updated_page ∧
    content_of (user_items (canvas st')) st'
    = content_of (user_items (canvas server_updated_page)) server_updated_page.
Proof.
  eapply (@X10_server_ActionResponse_runs_update decimal_platform
            server_updated_page _ _ _ _ _ example_ActionResponse "Text is empty");
    [|reflexivity|reflexivity].
  repeat split; try reflexivity; eexists; reflexivity.
Defined.

Lemma X11_listeners_agree_witness :
  @Server.message_listener decimal_platform (Some example_update) opened_page
  = @Frontend.message_listener decimal_platform (Some example_update) opened_page.
Proof.
  apply (@X11_listeners_agree_off_ActionResponse decimal_platform
           (Some example_update) opened_page).
  intros data [= <-]. simpl. congruence.
Defined.


(** ** When [anket_main] fails *)

(** X12: [anket_main] of either file stops at its first failure, before
    it constructs a socket.  On a page without a [#poll-canvas] element
    it throws a TypeError and changes nothing.  On a page whose pathname
    gives no poll id it has emptied the canvas, throws the error of
    [anket_getPollID], and shows no "connecting" notice.  In both cases
    [anket.socket] stays [null], so no event of a socket is ever
    handled. *)
Theorem X12_main_stops_before_the_socket (loc : Location) :
  (Frontend.load (loaded loc None)
   = set_uncaught [null_reference "anket.canvas.self.innerHTML"]
       (loaded loc None) ∧
   Server.load (loaded loc None) = Frontend.load (loaded loc None)) ∧
  (∀ root e, anket_getPollID loc = Throw e →
     Frontend.load (loaded loc (Some root))
     = {| location := loc;
          poll_canvas := Some (with_children [] root);
          canvas := set_self (Some []) empty_canvas;
          socket := None; alerts := []; defaultPrevented := false;
          uncaught := [e] |} ∧
     Server.load (loaded loc (Some root))
     = Frontend.load (loaded loc (Some root))) ∧
  (∀ `{!Platform} st ev, socket st = None →
     Frontend.socket_dispatch ev st = st ∧ Server.socket_dispatch ev st = st).
Proof.
  split_and!.
  - done.
  - done.
  - intros root e He.
    assert (HF : Frontend.load (loaded loc (Some root))
                 = {| location := loc;
                      poll_canvas := Some (with_children [] root);
                      canvas := set_self (Some []) empty_canvas;
                      socket := None; alerts := []; defaultPrevented := false;
                      uncaught := [e] |}).
    { unfold Frontend.load, run, Frontend.anket_main.
      erewrite bind_Return; [|reflexivity].
      erewrite bind_Return; [|reflexivity].
      erewrite bind_Return; [|reflexivity].
      erewrite bind_Throw; [|unfold lift; simpl; by rewrite He]. reflexivity. }
    split; [done|]. rewrite HF.
    unfold Server.load, run, Server.anket_main.
    erewrite bind_Return; [|reflexivity].
    erewrite bind_Return; [|reflexivity].
    erewrite bind_Return; [|reflexivity].
    erewrite bind_Throw; [|unfold lift; simpl; by rewrite He]. reflexivity.
  - intros HP st ev Hsocket.
    unfold Frontend.socket_dispatch, Server.socket_dispatch. by rewrite Hsocket.
Qed.

(** ** What holds in every state of the page *)

Lemma keeps_socket_send_valid I v :
  about_connection I → (∀ st, I st → I (with_sent v st)) →
  keeps I (socket_send v).
Proof.
  intros HI Hv st Hst. unfold socket_send.
  destruct (socket st) as [ws|] eqn:Hws; [|done].
  specialize (Hv st Hst). unfold with_sent in Hv. by rewrite Hws in Hv.
Qed.

Section connection_invariants.
Context `{!Platform}.

Variable I : Page → Prop.
Hypothesis I_connection : about_connection I.
Hypothesis I_vote : ∀ st item_id vote,
  vote ∈ [-1; 0; 1] → I st → I (with_sent (VoteItem item_id vote) st).
Hypothesis I_text : ∀ st text,
  text ≠ "" → I st → I (with_sent (AddItem text) st).

Lemma I_uncaught st u : I st → I (set_uncaught u st).
Proof. by apply I_connection. Qed.

Lemma keeps_click_listener_valid target l : keeps I (click_listener target l).
Proof.
  destruct l; simpl; [apply keeps_ret| |];
    (apply keeps_bind; [apply keeps_deref|]); intros item.
  - unfold buttonUp_click, anket_sendVoteItemMsg.
    apply keeps_socket_send_valid; [done|]. intros st.
    apply (I_vote st id). case_bool_decide; repeat constructor.
  - unfold buttonDown_click, anket_sendVoteItemMsg.
    apply keeps_socket_send_valid; [done|]. intros st.
    apply (I_vote st id). case_bool_decide; repeat constructor.
Qed.

Lemma keeps_submit_listener_valid : keeps I Frontend.submit_listener.
Proof.
  unfold Frontend.submit_listener.
  apply keeps_bind; [by apply keeps_modify_connection|]. intros _.
  apply keeps_bind; [apply keeps_gets|]. intros c.
  apply keeps_bind; [apply keeps_query|]. intros input.
  apply keeps_bind; [apply keeps_deref|]. intros e.
  apply keeps_bind; [|intros _; by apply keeps_mutate_connection].
  destruct (value_of e) as [|ch text] eqn:Hvalue; [apply keeps_ret|].
  simpl. apply keeps_socket_send_valid; [done|]. intros st.
  by apply (I_text st (String ch text)).
Qed.

Lemma handle_keeps_valid e st : I st → I (Frontend.handle e st).
Proof.
  intros Hst. destruct e as [ev|target|target|text]; simpl.
  - unfold Frontend.socket_dispatch. destruct (socket st) as [ws|]; [|done].
    apply foldl_keeps; [|done]. intros st' l.
    apply keeps_run; [|intros; by apply I_uncaught].
    destruct (keeps_initCanvas_connection I I_connection) as [Hinit _].
    destruct l, ev; simpl; try apply keeps_ret.
    + by apply keeps_alert_connection.
    + by apply keeps_alert_connection.
    + exact Hinit.
    + exact (proj1 (keeps_message_listener_connection I event_data I_connection)).
  - unfold click. destruct (poll_canvas st ≫= _) as [e|]; [|done].
    apply foldl_keeps; [|done]. intros st' l.
    apply keeps_run; [apply keeps_click_listener_valid|].
    intros; by apply I_uncaught.
  - unfold Frontend.submit.
    assert (Hst0 : I (set_defaultPrevented false st)) by by apply (I_connection st).
    destruct (poll_canvas _ ≫= _) as [e|]; [|done].
    apply foldl_keeps; [|done]. intros st' l Hst'. destruct l; try done.
    apply keeps_run; [apply keeps_submit_listener_valid| |done].
    intros; by apply I_uncaught.
  - unfold Frontend.type_item_text.
    destruct (Frontend.item_text_field st); [|done]. by apply (I_connection st).
Qed.

(** A property of the connection that holds once [anket_main] has run
    and that sending a valid message keeps holds in every state of the
    page. *)
Lemma reachable_connection_invariant :
  (∀ loc root pollID, anket_getPollID loc = Return pollID →
     I (Frontend.load (loaded loc (Some root)))) →
  ∀ st, Frontend.reachable st → I st.
Proof.
  intros Hload st Hst. induction Hst as [loc root pollID Hid|st e _ IH].
  - apply (handle_keeps_valid (Frontend.Socket Open)). by eapply Hload.
  - by apply handle_keeps_valid.
Qed.
End connection_invariants.

Lemma sent_so_far_with_sent v st :
  sent_so_far (with_sent v st)
  = match socket st with
    | Some _ => sent_so_far st ++ [v]
    | None => []
    end.
Proof. unfold sent_so_far, with_sent. by destruct (socket st). Qed.

Lemma updated_page_reachable : @Frontend.reachable decimal_platform updated_page.
Proof.
  exact (@Frontend.reachable_event decimal_platform opened_page
           (Frontend.Socket (Message (Some example_update)))
           opened_page_reachable).
Qed.

Section what_holds_in_every_state.
Context `{!Platform}.

(** X13: in every state of the page after the socket opened, every
    message the script has passed to the socket is an AddItem with a text
    that is not empty or a VoteItem with a vote of -1, 0 or 1: whatever
    the server sends and whatever the user clicks, types and submits,
    nothing else is ever sent. *)
Theorem X13_only_valid_messages_are_sent (st : Page) :
  Frontend.reachable st → Forall valid_message (sent_so_far st).
Proof.
  apply (reachable_connection_invariant
           (λ st, Forall valid_message (sent_so_far st))).
  - intros st1 st2 _ Hs. unfold sent_so_far. by rewrite Hs.
  - intros st1 item_id vote Hvote Hst1. rewrite sent_so_far_with_sent.
    destruct (socket st1); [|done]. apply Forall_app. split; [done|].
    constructor; [|constructor]. right. by exists item_id, vote.
  - intros st1 text Htext Hst1. rewrite sent_so_far_with_sent.
    destruct (socket st1); [|done]. apply Forall_app. split; [done|].
    constructor; [|constructor]. left. by exists text.
  - intros loc root pollID Hid. rewrite (Frontend_load_page _ _ _ Hid).
    constructor.
Qed.

(** X14: in every state of the page after the socket opened,
    [anket.socket] is the socket [anket_main] constructed: its URL is
    the one [anket_getWSUrl] gives for the poll id of the page and its
    listeners are the four of [anket_main]; no event makes the script
    construct another socket or add a listener to this one. *)
Theorem X14_the_socket_is_never_replaced (st : Page) :
  Frontend.reachable st →
  ∃ pollID ws,
    anket_getPollID (location st) = Return pollID ∧
    socket st = Some ws ∧
    url ws = anket_getWSUrl (location st) pollID ∧
    socket_listeners ws = main_listeners.
Proof.
  apply (reachable_connection_invariant
           (λ st, ∃ pollID ws,
              anket_getPollID (location st) = Return pollID ∧
              socket st = Some ws ∧
              url ws = anket_getWSUrl (location st) pollID ∧
              socket_listeners ws = main_listeners)).
  - intros st1 st2 Hl Hs. by rewrite Hl, Hs.
  - intros st1 item_id vote _ (pollID & ws & Hid & Hws & Hurl & Hls).
    exists pollID. eexists. unfold with_sent. rewrite Hws. simpl.
    by split_and!.
  - intros st1 text _ (pollID & ws & Hid & Hws & Hurl & Hls).
    exists pollID. eexists. unfold with_sent. rewrite Hws. simpl.
    by split_and!.
  - intros loc root pollID Hid. rewrite (Frontend_load_page _ _ _ Hid).
    exists pollID. eexists. by split_and!.
Qed.

(** X15: in every state of the page after the socket opened, the page
    is ready: [anket.canvas] refers to the title element, the form and
    the three lists, the four views are separate elements of the
    [#poll-canvas] subtree, the form has its submit listener and holds
    the text field, and the socket has the listeners of [anket_main].
    No message, well formed or not, and no click, text or submission
    breaks that. *)
Theorem X15_the_page_stays_ready (st : Page) :
  Frontend.reachable st → page_ready st.
Proof. apply reachable_ready. Qed.
End what_holds_in_every_state.

Lemma X13_only_valid_messages_witness :
  Forall valid_message
    (sent_so_far
       (click [3; 1; 3; 1; 1; 1; 1]%nat
          (Frontend.submit [1; 1; 3]%nat
             (@Frontend.handle decimal_platform (Frontend.TypeItemText "Tea")
                updated_page)))).
Proof.
  apply (@X13_only_valid_messages_are_sent decimal_platform).
  apply (@Frontend.reachable_event decimal_platform _
           (Frontend.Click [3; 1; 3; 1; 1; 1; 1]%nat)).
  apply (@Frontend.reachable_event decimal_platform _
           (Frontend.Submit [1; 1; 3]%nat)).
  apply Frontend.reachable_event, updated_page_reachable.
Defined.

Lemma X14_the_socket_witness :
  ∃ pollID ws,
    anket_getPollID (location updated_page) = Return pollID ∧
    socket updated_page = Some ws ∧
    url ws = anket_getWSUrl (location updated_page) pollID ∧
    socket_listeners ws = main_listeners.
Proof.
  apply (@X14_the_socket_is_never_replaced decimal_platform updated_page).
  apply updated_page_reachable.
Defined.

Lemma X15_the_page_stays_ready_witness : page_ready updated_page.
Proof.
  apply (@X15_the_page_stays_ready decimal_platform updated_page).
  apply updated_page_reachable.
Defined.

(** ** What the user can do to the page *)

Lemma get_at_take (root e : element) (p : path) (k : nat) :
  get_at root p = Some e → is_Some (get_at root (take k p)).
Proof.
  revert root k. induction p as [|i p IH]; intros root k Hp.
  - by destruct k.
  - destruct k as [|k]; [done|]. simpl in *.
    destruct (children root !! i) as [[|c]|]; try done. by apply IH.
Qed.

Lemma click_listener_quiet (target : path) (l : listener) (st : Page)
    (root e : element) (ws : WebSocket) :
  poll_canvas st = Some root →
  get_at root target = Some e →
  socket st = Some ws →
  ∃ v, run (click_listener target l) st = with_sent v st ∨
       run (click_listener target l) st = st.
Proof.
  intros Hroot He Hws.
  destruct l as [|above id|above id]; simpl.
  - exists VNull. by right.
  - destruct (get_at_take root e target (length target - above) He)
      as [item Hitem].
    eexists. left. unfold run.
    erewrite bind_Return; [|by eapply deref_Some].
    unfold buttonUp_click, anket_sendVoteItemMsg, socket_send, with_sent.
    by rewrite Hws.
  - destruct (get_at_take root e target (length target - above) He)
      as [item Hitem].
    eexists. left. unfold run.
    erewrite bind_Return; [|by eapply deref_Some].
    unfold buttonDown_click, anket_sendVoteItemMsg, socket_send, with_sent.
    by rewrite Hws.
Qed.

Section user_actions.
Context `{!Platform}.

Lemma click_quiet (target : path) (st : Page) :
  page_ready st →
  uncaught (click target st) = uncaught st ∧
  alerts (click target st) = alerts st.
Proof.
  intros (root & text & ws & _ & (Hroot & _) & _ & Hws & _).
  unfold click. rewrite Hroot. cbn [mbind option_bind].
  destruct (get_at root target) as [e|] eqn:He; [|done].
  pose (K := λ st', poll_canvas st' = Some root ∧ is_Some (socket st') ∧
                    uncaught st' = uncaught st ∧ alerts st' = alerts st).
  assert (HK : K (foldl (λ st l, run (click_listener target l) st) st
                    (listeners_for "click" (listeners e)))).
  { apply foldl_keeps; [|by repeat split].
    intros st' l (Hroot' & [ws' Hws'] & Hu & Ha).
    destruct (click_listener_quiet target l st' root e ws' Hroot' He Hws')
      as [v [-> | ->]]; [|by repeat split].
    unfold with_sent, K. rewrite Hws'. by repeat split. }
  by destruct HK as (_ & _ & ? & ?).
Qed.

Lemma submit_quiet (target : path) (st : Page) :
  page_ready st →
  uncaught (Frontend.submit target st) = uncaught st ∧
  alerts (Frontend.submit target st) = alerts st.
Proof.
  intros Hst. unfold Frontend.submit.
  assert (Hst0 : page_ready (set_defaultPrevented false st))
    by (by eapply page_ready_frame).
  destruct (poll_canvas _ ≫= _) as [e|]; [|done].
  pose (K := λ st', page_ready st' ∧
                    uncaught st' = uncaught st ∧ alerts st' = alerts st).
  assert (HK : K (foldl (λ st l, match l with
                                 | form_submit => run Frontend.submit_listener st
                                 | _ => st
                                 end)
                    (set_defaultPrevented false st)
                    (listeners_for "submit" (listeners e)))).
  { apply foldl_keeps; [|by repeat split].
    intros st' l (Hst' & Hu & Ha). destruct l; try done.
    pose proof (submit_listener_keeps_ready st' Hst') as Hkeeps.
    destruct (page_ready_form st' Hst') as (root & text & Hroot & Hform).
    destruct (submit_listener_ready _ _ _ _ Hform) as (root' & _ & Hsubmit).
    unfold run. rewrite Hsubmit in Hkeeps |- *. cbn [snd] in Hkeeps.
    split; [done|]. cbn [uncaught alerts set_poll_canvas].
    case_bool_decide; [done|]. unfold with_sent. by destruct (socket st'). }
  by destruct HK as (_ & ? & ?).
Qed.

(** X16: in every state of the page after the socket opened, nothing
    the user does makes the script throw or show an alert: a click
    anywhere, a submission of any element and a text typed into the
    field leave the uncaught errors and the alerts as they were.  So the
    item a vote button reads its attribute from, the text field the
    submit listener looks up and [anket.socket] are never null when a
    listener of the page runs. *)
Theorem X16_user_actions_never_throw (st : Page) (e : Frontend.event) :
  Frontend.reachable st →
  (∀ ev, e ≠ Frontend.Socket ev) →
  uncaught (Frontend.handle e st) = uncaught st ∧
  alerts (Frontend.handle e st) = alerts st.
Proof.
  intros Hst Huser. apply reachable_ready in Hst.
  destruct e as [ev|target|target|text]; simpl.
  - by destruct (Huser ev).
  - by apply click_quiet.
  - by apply submit_quiet.
  - unfold Frontend.type_item_text, type_text.
    by destruct (Frontend.item_text_field st).
Qed.

(** X17: in every state of the page after the socket opened, a second
    submission of the form right after a first one sends nothing: the
    first one left the text field empty, so the form sends at most one
    AddItem message for a text typed once. *)
Theorem X17_second_submit_sends_nothing (st : Page) (at_form : path) :
  Frontend.reachable st →
  form (canvas st) = Some at_form →
  sent_so_far (Frontend.submit at_form (Frontend.submit at_form st))
  = sent_so_far (Frontend.submit at_form st).
Proof.
  intros Hst Hform.
  destruct (reachable_form st Hst) as (text & Hform' & _ & _ & Hready).
  assert (at_form = [1; 1; 3]%nat) as -> by congruence.
  destruct (submit_ready _ _ _ _ Hready) as (root & Hroot & Hsubmit & Hempty).
  assert (Hst1 : Frontend.reachable (Frontend.submit [1; 1; 3]%nat st))
    by apply (Frontend.reachable_event st (Frontend.Submit [1; 1; 3]%nat) Hst).
  destruct (reachable_form _ Hst1) as (text1 & _ & _ & Hvalue1 & Hready1).
  assert (text1 = "") as ->.
  { rewrite Hsubmit in Hvalue1. unfold value_at in Hvalue1.
    cbn [poll_canvas set_poll_canvas mbind option_bind] in Hvalue1. congruence. }
  destruct (submit_ready _ _ _ _ Hready1) as (root1 & _ & -> & _).
  rewrite bool_decide_eq_true_2 by done. reflexivity.
Qed.
End user_actions.

Lemma X16_user_actions_witness :
  uncaught (@Frontend.handle decimal_platform
              (Frontend.Click [3; 1; 3; 1; 1; 1; 1]%nat) updated_page)
  = uncaught updated_page ∧
  alerts (@Frontend.handle decimal_platform
            (Frontend.Click [3; 1; 3; 1; 1; 1; 1]%nat) updated_page)
  = alerts updated_page.
Proof.
  apply (@X16_user_actions_never_throw decimal_platform updated_page
           (Frontend.Click [3; 1; 3; 1; 1; 1; 1]%nat)).
  - apply updated_page_reachable.
  - intros ev. discriminate.
Defined.

Lemma X17_second_submit_witness :
  let st := @Frontend.handle decimal_platform (Frontend.TypeItemText "Pizza")
              opened_page in
  sent_so_far (Frontend.submit [1; 1; 3]%nat (Frontend.submit [1; 1; 3]%nat st))
  = sent_so_far (Frontend.submit [1; 1; 3]%nat st).
Proof.
  apply (@X17_second_submit_sends_nothing decimal_platform
           (@Frontend.handle decimal_platform (Frontend.TypeItemText "Pizza")
              opened_page)
           [1; 1; 3]%nat); [|reflexivity].
  apply Frontend.reachable_event, opened_page_reachable.
Defined.

(** ** What a message leaves alone *)

Section view_invariants.
Context `{!Platform}.
Variable J : Page → Prop.
Hypothesis J_ready : ∀ st, J st → page_ready st.
Hypothesis J_view :
  ∀ st root p f,
    J st → poll_canvas st = Some root →
    p ∈ [[1; 1; 1]; [3; 1; 3]; [3; 3; 3]; [3; 5; 3]]%nat →
    changes_children_only f →
    J (set_poll_canvas (Some (update_at p f root)) st).
Hypothesis J_alerts : ∀ st a, J st → J (set_alerts a st).

Lemma keeps_mutate_view_only what p f :
  p ∈ [[1; 1; 1]; [3; 1; 3]; [3; 3; 3]; [3; 5; 3]]%nat →
  changes_children_only f →
  keeps J (mutate what (Some p) f).
Proof.
  intros Hp Hf st Hst. unfold mutate, bind, deref, modify.
  destruct (poll_canvas st) as [root|] eqn:Hroot; [|done].
  destruct (get_at root p); [|done]. simpl. rewrite Hroot. simpl.
  by apply J_view.
Qed.

Lemma keeps_canvas_view_only {B} (k : Canvas → M B) :
  keeps J (k opened_canvas) → keeps J (bind (gets canvas) k).
Proof.
  intros Hk st Hst. unfold bind, gets.
  destruct (J_ready st Hst) as (root & text & ws & Hcanvas & _).
  rewrite Hcanvas. by apply Hk.
Qed.

Lemma keeps_renderItems_view_only items p :
  p ∈ [[1; 1; 1]; [3; 1; 3]; [3; 3; 3]; [3; 5; 3]]%nat →
  keeps J (anket_renderItems items (Some p)).
Proof.
  intros Hp. unfold anket_renderItems.
  apply keeps_bind; [by apply keeps_mutate_view_only|]. intros _.
  destruct items; try apply keeps_throw.
  apply keeps_forEach. intros details.
  apply keeps_bind; [apply keeps_lift|]. intros item.
  by apply keeps_mutate_view_only.
Qed.

Lemma keeps_case_PollStateUpdate_view_only data :
  keeps J (case_PollStateUpdate data).
Proof.
  unfold case_PollStateUpdate.
  repeat first
    [ apply keeps_renderItems_view_only
    | apply keeps_canvas_view_only;
      cbn [title top_items latest_items user_items opened_canvas]
    | apply keeps_bind; [first [ apply keeps_lift
                               | apply keeps_mutate_view_only
                               | apply keeps_renderItems_view_only ]|intros ?] ];
    first [by intros ?|repeat constructor].
Qed.

Lemma keeps_message_listener_view_only event_data :
  keeps J (Frontend.message_listener event_data).
Proof.
  unfold Frontend.message_listener.
  apply keeps_bind; [apply keeps_lift|]. intros data.
  apply keeps_bind; [apply keeps_lift|]. intros type.
  destruct (strict_eq_string type "ActionResponse").
  { apply keeps_bind; [apply keeps_lift|]. intros content st Hst.
    by apply J_alerts. }
  destruct (strict_eq_string type "PollStateUpdate");
    [apply keeps_case_PollStateUpdate_view_only|apply keeps_ret].
Qed.
End view_invariants.

Lemma outside_views_other (q p : path) :
  outside_views q = true →
  p ∈ [[1; 1; 1]; [3; 1; 3]; [3; 3; 3]; [3; 5; 3]]%nat →
  prefixb p q = false ∧ prefixb q p = false.
Proof.
  unfold outside_views. simpl. rewrite !andb_true_iff, !negb_true_iff.
  intros ((?&?) & (?&?) & (?&?) & (?&?) & _).
  rewrite !elem_of_cons, elem_of_nil.
  by intros [->|[->|[->|[->|[]]]]].
Qed.

Section messages_and_the_page.
Context `{!Platform}.

(** X18: in every state of the page after the socket opened, a message
    from the server, of any type and well formed or not, and the end of
    the connection change nothing of the page outside the title and the
    three lists: every element that is none of the four, in none of them
    and around none of them is after the event what it was before, with
    its attributes, text, listeners and children.  In particular the
    text the user has typed into the field of the form survives a poll
    state update. *)
Theorem X18_messages_change_the_views_only
    (st : Page) (ev : socket_event) (q : path) :
  Frontend.reachable st →
  ev ≠ Open →
  outside_views q = true →
  element_at q (Frontend.socket_dispatch ev st) = element_at q st.
Proof.
  intros Hst Hev Hq. apply reachable_ready in Hst.
  pose (J := λ st', page_ready st' ∧ element_at q st' = element_at q st).
  assert (HJ : J (Frontend.socket_dispatch ev st)); [|by destruct HJ].
  assert (J_view : ∀ st' root p f,
            J st' → poll_canvas st' = Some root →
            p ∈ [[1; 1; 1]; [3; 1; 3]; [3; 3; 3]; [3; 5; 3]]%nat →
            changes_children_only f →
            J (set_poll_canvas (Some (update_at p f root)) st')).
  { intros st' root p f [Hready Hsame] Hroot Hp _. split.
    - by apply page_ready_view.
    - rewrite <- Hsame. unfold element_at.
      cbn [poll_canvas set_poll_canvas mbind option_bind]. rewrite Hroot.
      cbn [mbind option_bind].
      destruct (outside_views_other q p Hq Hp). by apply get_at_update_other. }
  assert (J_alerts : ∀ st' a, J st' → J (set_alerts a st')).
  { intros st' a [Hready Hsame]. split; [|done]. by eapply page_ready_frame. }
  assert (J_uncaught : ∀ st' u, J st' → J (set_uncaught u st')).
  { intros st' u [Hready Hsame]. split; [|done]. by apply page_ready_uncaught. }
  assert (HJst : J st) by done.
  unfold Frontend.socket_dispatch.
  destruct Hst as (root & text & ws & Hcanvas & Hviews & Hform & Hws & Hls).
  rewrite Hws, Hls.
  destruct ev; simpl; try done.
  apply keeps_run; [|done..].
  apply keeps_message_listener_view_only; [by intros ? []|done..].
Qed.
End messages_and_the_page.

Lemma X18_messages_witness :
  let st := @Frontend.handle decimal_platform (Frontend.TypeItemText "Pizza")
              opened_page in
  element_at [1; 1; 3; 1; 3]%nat
    (@Frontend.socket_dispatch decimal_platform (Message (Some example_update)) st)
  = element_at [1; 1; 3; 1; 3]%nat st.
Proof.
  apply (@X18_messages_change_the_views_only decimal_platform
           (@Frontend.handle decimal_platform (Frontend.TypeItemText "Pizza")
              opened_page)
           (Message (Some example_update)) [1; 1; 3; 1; 3]%nat);
    [|discriminate|reflexivity].
  apply Frontend.reachable_event, opened_page_reachable.
Defined.

(** ** The last update wins *)

Lemma update_at_comm (e : element) p q f g :
  prefixb p q = false → prefixb q p = false →
  update_at p f (update_at q g e) = update_at q g (update_at p f e).
Proof.
  revert e q. induction p as [|i p IH]; intros e [|j q]; simpl; try done.
  destruct (Nat.eqb_spec i j) as [<-|Hij]; simpl.
  - rewrite (Nat.eqb_refl i). simpl. intros Hpq Hqp.
    destruct (children e !! i) as [[|c]|] eqn:Hi; simpl; rewrite ?Hi; try done.
    rewrite !list_lookup_insert_eq by eauto using lookup_lt_Some.
    unfold with_children. simpl.
    by rewrite !list_insert_insert_eq, IH.
  - intros _ _.
    destruct (children e !! i) as [[|c]|] eqn:Hi;
      destruct (children e !! j) as [[|d]|] eqn:Hj;
      simpl; rewrite ?Hi, ?Hj; try done;
      rewrite ?list_lookup_insert_ne by done; rewrite ?Hi, ?Hj; try done.
    unfold with_children. simpl. by rewrite list_insert_insert_ne.
Qed.

Lemma update_at_absorbs (e : element) p f c :
  changes_children_only f →
  update_at p (with_children c) (update_at p f e)
  = update_at p (with_children c) e.
Proof.
  intros Hf. rewrite update_at_twice. apply update_at_ext. intros x.
  simpl. by rewrite Hf.
Qed.

Lemma replace_children_comm views p f root :
  Forall (λ q, prefixb q p = false ∧ prefixb p q = false) views.*1 →
  replace_children views (update_at p f root)
  = update_at p f (replace_children views root).
Proof.
  induction views as [|[q c] views IH]; [done|].
  rewrite fmap_cons, Forall_cons. intros [[Hqp Hpq] Hviews]. simpl.
  rewrite IH by done. by apply update_at_comm.
Qed.

Lemma replace_children_absorbs views p f root :
  separate views.*1 = true →
  p ∈ views.*1 →
  changes_children_only f →
  replace_children views (update_at p f root) = replace_children views root.
Proof.
  intros Hsep Hp Hf. induction views as [|[q c] views IH]; simpl in *.
  { by apply elem_of_nil in Hp. }
  apply andb_true_iff in Hsep as [Hq Hsep].
  apply elem_of_cons in Hp as [->|Hp]; [|by rewrite IH].
  rewrite replace_children_comm; [by apply update_at_absorbs|].
  rewrite forallb_forall in Hq. apply Forall_forall. intros x Hx.
  apply list_elem_of_In in Hx. specialize (Hq x Hx).
  rewrite andb_true_iff, !negb_true_iff in Hq. tauto.
Qed.

Section last_update.
Context `{!Platform}.

Lemma socket_dispatch_Message (st : Page) event_data :
  page_ready st →
  Frontend.socket_dispatch (Message event_data) st
  = run (Frontend.message_listener event_data) st.
Proof.
  intros (root & text & ws & _ & _ & _ & Hws & Hls).
  unfold Frontend.socket_dispatch. by rewrite Hws, Hls.
Qed.

Lemma socket_dispatch_update
    (st : Page) (root : element) (data content poll_title : value)
    (tops latests users : list value) (top_els latest_els user_els : list element) :
  page_ready st →
  poll_canvas st = Some root →
  poll_state_update data content poll_title tops latests users →
  rendered tops top_els →
  rendered latests latest_els →
  rendered users user_els →
  Frontend.socket_dispatch (Message (Some data)) st
  = set_poll_canvas
      (Some (replace_children
               [([3; 5; 3]%nat, Element <$> user_els);
                ([3; 3; 3]%nat, Element <$> latest_els);
                ([3; 1; 3]%nat, Element <$> top_els);
                ([1; 1; 1]%nat, text_fragment "" (innerText_string poll_title))]
               root))
      st.
Proof.
  intros Hst Hroot (Htype & Hcontent & Htitle & Htops & Hlatests & Husers & _)
         Hr1 Hr2 Hr3.
  rewrite socket_dispatch_Message by done.
  destruct Hst as (root' & text & ws & Hcanvas & Hviews & _).
  assert (root' = root) as -> by (destruct Hviews; congruence).
  unfold run, Frontend.message_listener.
  erewrite bind_Return; [|reflexivity].
  erewrite bind_Return; [|unfold lift; by rewrite Htype].
  change (strict_eq_string (VStr "PollStateUpdate") "ActionResponse") with false.
  change (strict_eq_string (VStr "PollStateUpdate") "PollStateUpdate") with true.
  cbv iota. by erewrite case_PollStateUpdate_ready.
Qed.

(** X19: in every state of the page after the socket opened, what the
    page shows after a poll state update of the wire shape does not
    depend on the message that came just before it: whatever that
    message was, of any type, well formed or not, and whether its
    listener returned or threw half way through the lists, the document
    after the update is the one the update gives without it.  When the
    earlier message is a poll state update of the wire shape too, the
    whole page is the same; so the last update wins and an update
    received twice changes nothing the second time. *)
Theorem X19_update_overrides_earlier_messages
    (st : Page) (earlier : option value)
    (data content poll_title : value) (tops latests users : list value) :
  Frontend.reachable st →
  poll_state_update data content poll_title tops latests users →
  poll_canvas (Frontend.socket_dispatch (Message (Some data))
                 (Frontend.socket_dispatch (Message earlier) st))
  = poll_canvas (Frontend.socket_dispatch (Message (Some data)) st) ∧
  (∀ data' content' poll_title' tops' latests' users',
     earlier = Some data' →
     poll_state_update data' content' poll_title' tops' latests' users' →
     Frontend.socket_dispatch (Message (Some data))
       (Frontend.socket_dispatch (Message earlier) st)
     = Frontend.socket_dispatch (Message (Some data)) st).
Proof.
  intros Hst Hdata. apply reachable_ready in Hst.
  pose proof Hdata as (_ & _ & _ & _ & _ & _ & Hobjects).
  apply Forall_app in Hobjects as [Ho1 Hobjects].
  apply Forall_app in Hobjects as [Ho2 Ho3].
  destruct (rendered_objects _ Ho1) as [top_els Hr1].
  destruct (rendered_objects _ Ho2) as [latest_els Hr2].
  destruct (rendered_objects _ Ho3) as [user_els Hr3].
  pose proof Hst as (root & _ & _ & _ & (Hroot & _) & _).
  pose (J := λ st', page_ready st' ∧
                    ∃ root', poll_canvas st' = Some root' ∧
                      ∀ c4 c3 c2 c1,
                        replace_children
                          [([3; 5; 3]%nat, c4); ([3; 3; 3]%nat, c3);
                           ([3; 1; 3]%nat, c2); ([1; 1; 1]%nat, c1)] root'
                        = replace_children
                            [([3; 5; 3]%nat, c4); ([3; 3; 3]%nat, c3);
                             ([3; 1; 3]%nat, c2); ([1; 1; 1]%nat, c1)] root).
  assert (HJ : J (Frontend.socket_dispatch (Message earlier) st)).
  { rewrite socket_dispatch_Message by done.
    apply keeps_run; [| |by split; [|exists root]].
    - apply keeps_message_listener_view_only.
      + by intros ? [].
      + intros st' r p f [Hready (root' & Hroot' & Hsame)] Hr Hp Hf.
        assert (root' = r) as -> by congruence.
        split; [by apply page_ready_view|].
        eexists. split; [reflexivity|]. intros c4 c3 c2 c1.
        rewrite <- Hsame. apply replace_children_absorbs; [done| |done].
        rewrite !elem_of_cons, elem_of_nil in Hp. simpl.
        rewrite !elem_of_cons. tauto.
      + intros st' a [Hready Hsame]. split; [|done].
        by eapply page_ready_frame.
    - intros st' u [Hready Hsame]. split; [|done].
      by apply page_ready_uncaught. }
  destruct HJ as [Hst1 (root1 & Hroot1 & Hsame)].
  rewrite (socket_dispatch_update _ _ _ _ _ _ _ _ _ _ _ Hst1 Hroot1 Hdata
             Hr1 Hr2 Hr3).
  rewrite (socket_dispatch_update _ _ _ _ _ _ _ _ _ _ _ Hst Hroot Hdata
             Hr1 Hr2 Hr3).
  rewrite Hsame. split; [done|].
  intros data' content' poll_title' tops' latests' users' -> Hdata'.
  pose proof Hdata' as (_ & _ & _ & _ & _ & _ & Hobjects').
  apply Forall_app in Hobjects' as [Ho1' Hobjects'].
  apply Forall_app in Hobjects' as [Ho2' Ho3'].
  destruct (rendered_objects _ Ho1') as [top_els' Hr1'].
  destruct (rendered_objects _ Ho2') as [latest_els' Hr2'].
  destruct (rendered_objects _ Ho3') as [user_els' Hr3'].
  by rewrite (socket_dispatch_update _ _ _ _ _ _ _ _ _ _ _ Hst Hroot Hdata'
                Hr1' Hr2' Hr3').
Qed.
End last_update.

Lemma X19_update_overrides_witness :
  poll_canvas
    (@Frontend.socket_dispatch decimal_platform (Message (Some example_update))
       (@Frontend.socket_dispatch decimal_platform
          (Message (Some example_ActionResponse)) updated_page))
  = poll_canvas
      (@Frontend.socket_dispatch decimal_platform
         (Message (Some example_update)) updated_page).
Proof.
  eapply proj1.
  eapply (@X19_update_overrides_earlier_messages decimal_platform updated_page
            (Some example_ActionResponse) example_update).
  - apply updated_page_reachable.
  - unfold poll_state_update. split_and!; try reflexivity.
    repeat constructor; eexists; reflexivity.
Defined.
